(** * Resource-management backend: Accounts, Demands, dashboard search

    A shallow embedding of the service layer of [backend_code.py]
    (AccountService, DemandService, DashboardService) together with the
    part of the database layer the services rely on: the two tables, the
    primary key of [accounts], the unique index on [demands.id], the
    auto-assigned [demands.sno] and the LIKE operator behind
    [Column.contains].

    Conventions.
    - Every column declared without [nullable=False] is an [option]: the
      update operations can store Python's [None] in any business column.
    - A pydantic update schema remembers which fields were set
      ([dict(exclude_unset=True)]): a field is [Unset] or [Given v], and
      [Given None] is an explicit null.
    - A service call runs in the monad [M]: it reads and writes the
      database, reads the wall clock ([datetime.datetime.now()]) and may
      raise an exception.  A raised exception leaves the database as it was:
      nothing reaches the tables before [db.commit()].
    - Text is [string]: the UTF-8 bytes of the Python text, a byte being
      an [ascii]. *)

From Stdlib Require Import List String Ascii ZArith Bool Lia Arith.
From Stdlib Require Import DecimalString DecimalNat.
Import ListNotations.
Local Open Scope string_scope.
Local Open Scope list_scope.

Set Implicit Arguments.

(* ================================================================== *)
(** ** Dates and timestamps *)

Record date := mk_date { d_year : nat; d_month : nat; d_day : nat }.

Record datetime := mk_datetime {
  year : nat; month : nat; day : nat;
  hour : nat; minute : nat; second : nat }.

(** [datetime.date()] *)
Definition date_of (t : datetime) : date :=
  mk_date (year t) (month t) (day t).

Definition digit (n : nat) : ascii := ascii_of_nat (48 + n mod 10).

Definition pad2 (n : nat) : string :=
  String (digit (n / 10)) (String (digit n) EmptyString).

Definition pad4 (n : nat) : string :=
  String (digit (n / 1000)) (String (digit (n / 100)) (pad2 n)).

(** [t.strftime('%Y%m%d%H%M%S')]: fourteen digits, one-second granularity. *)
Definition strftime (t : datetime) : string :=
  pad4 (year t) ++ pad2 (month t) ++ pad2 (day t) ++
  pad2 (hour t) ++ pad2 (minute t) ++ pad2 (second t).

(** [str(i)] for a non-negative loop index. *)
Definition str (i : nat) : string := NilEmpty.string_of_uint (Nat.to_uint i).

(** Python truthiness of a string. *)
Definition truthy (s : string) : bool :=
  match s with EmptyString => false | _ => true end.

(* ================================================================== *)
(** ** Database models *)

Module AccountModel.
Record t := mk {
    id : string;
    client : option string;
    project : option string;
    vertical : option string;
    geo : option string;
    start_month : option string;
    revised_start_date : option date;
    planned_start_date : option date;
    planned_end_date : option date;
    probability : option Z;
    opportunity_status : option string;
    sow_status : option string;
    project_status : option string;
    client_partner : option string;
    proposal_anchor : option string;
    delivery_partner : option string;
    comment : option string;
    last_updated_by : string;
    updated_on : date;
    added_by : string;
    added_on : date }.
End AccountModel.

Module DemandModel.
Record t := mk {
    sno : Z;
    id : string;
    account_id : option string;
    project : option string;
    role : option string;
    role_code : option string;
    location : option string;
    revised : option string;
    original_start_date : option date;
    allocation_end_date : option date;
    allocation_percentage : option Z;
    probability : option Z;
    status : option string;
    resource_mapped : option string;
    comment : option string;
    last_updated_by : string;
    updated_on : date;
    added_by : string;
    added_on : date;
    start_month : option string }.
End DemandModel.

(* ================================================================== *)
(** ** Schemas *)

Inductive ProbabilityEnum := FIFTY | SEVENTY_FIVE | NINETY | HUNDRED.

Definition value (p : ProbabilityEnum) : Z :=
  match p with
  | FIFTY => 50 | SEVENTY_FIVE => 75 | NINETY => 90 | HUNDRED => 100
  end.

Module AccountCreate.
Record t := mk {
    client : string;
    project : string;
    vertical : string;
    geo : string;
    start_month : string;
    revised_start_date : option string;
    planned_start_date : option string;
    planned_end_date : option string;
    probability : ProbabilityEnum;
    opportunity_status : string;
    sow_status : string;
    project_status : string;
    client_partner : string;
    proposal_anchor : string;
    delivery_partner : string;
    comment : option string }.
End AccountCreate.

(** A field of an update schema: left out of the request, or given (a
    value or an explicit null). *)
Inductive field (A : Type) : Type :=
| Unset : field A
| Given : option A -> field A.
Arguments Unset {A}.
Arguments Given {A} _.

Definition field_map {A B} (f : A -> B) (x : field A) : field B :=
  match x with
  | Unset => Unset
  | Given v => Given (option_map f v)
  end.

(** [for key, value in update_data.items(): setattr(row, key, value)],
    one column at a time. *)
Definition setattr {A} (x : field A) (old : option A) : option A :=
  match x with
  | Unset => old
  | Given v => v
  end.

(** [setattr] of the probability of an account, which is given as one of
    the enum's members or not at all. *)
Definition setattr_enum (x : option ProbabilityEnum) (old : option Z)
  : option Z :=
  match x with
  | Some p => Some (value p)
  | None => old
  end.

Module AccountUpdate.
Record t := mk {
    client : field string;
    project : field string;
    vertical : field string;
    geo : field string;
    start_month : field string;
    revised_start_date : field string;
    planned_start_date : field string;
    planned_end_date : field string;
    probability : option ProbabilityEnum;  (* absent, or a value: the
      schema's [validate_probability] refuses an explicit null *)
    opportunity_status : field string;
    sow_status : field string;
    project_status : field string;
    client_partner : field string;
    proposal_anchor : field string;
    delivery_partner : field string;
    comment : field string }.

  (** The request body [{}]. *)
Definition empty : t :=
    mk Unset Unset Unset Unset Unset Unset Unset Unset
       None Unset Unset Unset Unset Unset Unset Unset.
End AccountUpdate.

Module DemandCreate.
Record t := mk {
    account_id : string;
    project : string;
    role : string;
    role_code : string;
    location : string;
    revised : option string;
    original_start_date : option string;
    allocation_end_date : option string;
    allocation_percentage : Z;
    probability : Z;
    status : string;
    resource_mapped : option string;
    comment : option string;
    start_month : string }.
End DemandCreate.

Module DemandUpdate.
Record t := mk {
    account_id : field string;
    project : field string;
    role : field string;
    role_code : field string;
    location : field string;
    revised : field string;
    original_start_date : field string;
    allocation_end_date : field string;
    allocation_percentage : field Z;
    probability : field Z;
    status : field string;
    resource_mapped : field string;
    comment : field string;
    start_month : field string }.

Definition empty : t :=
    mk Unset Unset Unset Unset Unset Unset Unset
       Unset Unset Unset Unset Unset Unset Unset.
End DemandUpdate.

(* ================================================================== *)
(** ** The database *)

Record Store := mk_store {
  accounts : list AccountModel.t;
  demands : list DemandModel.t }.

Definition empty_store : Store := mk_store [] [].

(** [db.query(AccountModel).filter(AccountModel.id == key).first()] *)
Definition first_account (s : Store) (key : string) : option AccountModel.t :=
  find (fun a => AccountModel.id a =? key) (accounts s).

(** The same query when the key comes out of an update dictionary and may
    be [None]: [id == None] is rendered [id IS NULL], and no row has a
    null primary key. *)
Definition first_account_opt (s : Store) (key : option string)
  : option AccountModel.t :=
  match key with
  | None => None
  | Some k => first_account s k
  end.

(** [db.query(DemandModel).filter(DemandModel.id == key).first()] *)
Definition first_demand (s : Store) (key : string) : option DemandModel.t :=
  find (fun d => DemandModel.id d =? key) (demands s).

Definition opt_eqb (x : option string) (key : string) : bool :=
  match x with
  | Some v => v =? key
  | None => false
  end.

(** [db.query(DemandModel).filter(DemandModel.account_id == key)] *)
Definition demands_of (s : Store) (key : string) : list DemandModel.t :=
  filter (fun d => opt_eqb (DemandModel.account_id d) key) (demands s).

(** The value SQLite gives an INTEGER PRIMARY KEY left out of an INSERT:
    one more than the largest in the table. *)
Definition next_sno (table : list DemandModel.t) : Z :=
  fold_right Z.max 0%Z (map DemandModel.sno table) + 1.

(** INSERT of the pending demands in the order they were added; [None]
    when an id breaks the unique index on [demands.id].  The result is the
    list of rows as stored, with their [sno]. *)
Fixpoint flush_inserts (table : list DemandModel.t)
    (pending : list (Z -> DemandModel.t)) : option (list DemandModel.t) :=
  match pending with
  | [] => Some []
  | mk :: rest =>
      let row := mk (next_sno table) in
      if existsb (fun d => DemandModel.id d =? DemandModel.id row) table
      then None
      else option_map (cons row) (flush_inserts (table ++ [row]) rest)
  end.

(** UPDATE accounts SET ... WHERE id = ? *)
Definition replace_account (a : AccountModel.t) (table : list AccountModel.t)
  : list AccountModel.t :=
  map (fun b => if AccountModel.id b =? AccountModel.id a then a else b) table.

(** UPDATE demands SET ... WHERE sno = ? *)
Definition replace_demand (d : DemandModel.t) (table : list DemandModel.t)
  : list DemandModel.t :=
  map (fun e => if (DemandModel.sno e =? DemandModel.sno d)%Z then d else e)
      table.

(* ================================================================== *)
(** ** The monad of a service call *)

Inductive exn :=
| HTTPException (status_code : Z) (detail : string)
| ValueError          (* strptime on a malformed date; bad search entity *)
| IntegrityError      (* primary key or unique index violated at commit *)
| StatementError      (* a Date column bound to something not a date *)
| OverflowError       (* an integer outside 64 bits bound to a statement *)
| OperationalError.   (* the engine refuses a statement, as LIKE a pattern *)

Inductive result (A : Type) : Type :=
| Ok : A -> result A
| Raise : exn -> result A.
Arguments Ok {A} _.
Arguments Raise {A} _.

Record World := mk_world {
  db : Store;
  ticks : nat   (* how many times the clock has been read *) }.

Definition M (A : Type) : Type := World -> result A * World.

Definition ret {A} (a : A) : M A := fun w => (Ok a, w).

Definition bind {A B} (m : M A) (k : A -> M B) : M B :=
  fun w =>
    match m w with
    | (Ok a, w') => k a w'
    | (Raise e, w') => (Raise e, w')
    end.

Definition raise {A} (e : exn) : M A := fun w => (Raise e, w).

Definition get_store : M Store := fun w => (Ok (db w), w).

Definition put_store (s : Store) : M unit :=
  fun w => (Ok tt, mk_world s (ticks w)).

Declare Scope svc_scope.
Delimit Scope svc_scope with svc.
Notation "x <- m ;; k" := (bind m (fun x => k))
  (at level 100, m at next level, right associativity) : svc_scope.
Notation "m ;;; k" := (bind m (fun _ => k))
  (at level 100, right associativity) : svc_scope.
Local Open Scope svc_scope.

Definition not_found_account : exn :=
  HTTPException 404 "Referenced account not found".

Definition not_found_demand : exn :=
  HTTPException 404 "Demand not found".

(* ================================================================== *)
(** ** Service layer *)

(** A value sitting in a Date attribute of a row object before the flush:
    a real date, or a string the service left unparsed. *)
Inductive pydate :=
| PyDate (d : date)
| PyStr (s : string).

Section Services.

  (** [datetime.datetime.strptime(s, "%Y-%m-%d").date()]; [None] stands for
      the ValueError it raises. *)
Variable strptime : string -> option date.

  (** The wall clock: the [n]-th reading of [datetime.datetime.now()]. *)
Variable clock : nat -> datetime.

Definition now : M datetime :=
    fun w => (Ok (clock (ticks w)), mk_world (db w) (S (ticks w))).

Definition parse (s : string) : M date :=
    match strptime s with
    | Some d => ret d
    | None => raise ValueError
    end.

  (** Create path: [x = None; if data.f: x = strptime(data.f)]. *)
Definition parse_optional (v : option string) : M (option date) :=
    match v with
    | Some s => if truthy s then (d <- parse s ;; ret (Some d)) else ret None
    | None => ret None
    end.

  (** Update path: [if 'f' in update_data and update_data['f']:
      update_data['f'] = strptime(update_data['f'])]. *)
Definition parse_field (x : field string) : M (field pydate) :=
    match x with
    | Unset => ret Unset
    | Given None => ret (Given None)
    | Given (Some s) =>
        if truthy s then (d <- parse s ;; ret (Given (Some (PyDate d))))
        else ret (Given (Some (PyStr s)))
    end.

  (** What the flush makes of a Date attribute: the column keeps its value
      when the attribute was not assigned, and a string is refused. *)
Definition flush_date (x : field pydate) (old : option date)
    : M (option date) :=
    match x with
    | Unset => ret old
    | Given None => ret None
    | Given (Some (PyDate d)) => ret (Some d)
    | Given (Some (PyStr _)) => raise StatementError
    end.

  (** [db.add(account); db.commit()] *)
Definition insert_account (a : AccountModel.t) : M unit :=
    s <- get_store ;;
    if existsb (fun b => AccountModel.id b =? AccountModel.id a) (accounts s)
    then raise IntegrityError
    else put_store (mk_store (accounts s ++ [a]) (demands s)).

  (** Python's [int] is unbounded, SQLite's INTEGER has 64 bits: binding
    an integer outside them to a statement raises OverflowError. *)
Definition int64 (n : Z) : bool := ((- 2 ^ 63 <=? n) && (n <? 2 ^ 63))%Z.

Definition bind_int (v : option Z) : M unit :=
  match v with
  | Some n => if int64 n then ret tt else raise OverflowError
  | None => ret tt
  end.

(** The same for a field of an update, which is bound when it is given. *)
Definition bind_given (x : field Z) : M unit :=
  match x with
  | Given v => bind_int v
  | Unset => ret tt
  end.

(** [db.add(demand); db.commit(); db.refresh(demand)]: the integers of
    the request are bound, the unique index is checked, and the row comes
    back with its [sno]. *)
Definition insert_demand (demand : Z -> DemandModel.t) : M DemandModel.t :=
  s <- get_store ;;
  let row := demand (next_sno (demands s)) in
  bind_int (DemandModel.allocation_percentage row) ;;;
  bind_int (DemandModel.probability row) ;;;
  if existsb (fun d => DemandModel.id d =? DemandModel.id row) (demands s)
  then raise IntegrityError
  else
    put_store (mk_store (accounts s) (demands s ++ [row])) ;;;
    ret row.

(** [db.add(clone)] in a loop, one [db.commit()], then [db.refresh] of
    each: all the rows or none.  (The integers of a clone were read from
    the table, where they fit 64 bits.) *)
Definition insert_demands (pending : list (Z -> DemandModel.t))
    : M (list DemandModel.t) :=
    s <- get_store ;;
    match flush_inserts (demands s) pending with
    | None => raise IntegrityError
    | Some rows =>
        put_store (mk_store (accounts s) (demands s ++ rows)) ;;;
        ret rows
    end.

  (** *** AccountService *)

Definition get_all_accounts : M (list AccountModel.t) :=
    s <- get_store ;; ret (accounts s).

Definition get_account_by_id (account_id : string)
    : M (option AccountModel.t) :=
    s <- get_store ;; ret (first_account s account_id).

Definition create_account (account_data : AccountCreate.t)
      (user_id : string) : M AccountModel.t :=
    t <- now ;;
    let new_id := ("ACC-" ++ strftime t)%string in
    t' <- now ;;
    let now_ := date_of t' in
    revised_start <-
      parse_optional (AccountCreate.revised_start_date account_data) ;;
    planned_start <-
      parse_optional (AccountCreate.planned_start_date account_data) ;;
    planned_end <-
      parse_optional (AccountCreate.planned_end_date account_data) ;;
    let account :=
      AccountModel.mk
        new_id
        (Some (AccountCreate.client account_data))
        (Some (AccountCreate.project account_data))
        (Some (AccountCreate.vertical account_data))
        (Some (AccountCreate.geo account_data))
        (Some (AccountCreate.start_month account_data))
        revised_start
        planned_start
        planned_end
        (Some (value (AccountCreate.probability account_data)))
        (Some (AccountCreate.opportunity_status account_data))
        (Some (AccountCreate.sow_status account_data))
        (Some (AccountCreate.project_status account_data))
        (Some (AccountCreate.client_partner account_data))
        (Some (AccountCreate.proposal_anchor account_data))
        (Some (AccountCreate.delivery_partner account_data))
        (AccountCreate.comment account_data)
        user_id now_ user_id now_ in
    insert_account account ;;;
    ret account.

Definition update_account (account_id : string)
      (account_data : AccountUpdate.t) (user_id : string)
    : M (option AccountModel.t) :=
    s <- get_store ;;
    match first_account s account_id with
    | None => ret None
    | Some account =>
        revised_start_date <-
          parse_field (AccountUpdate.revised_start_date account_data) ;;
        planned_start_date <-
          parse_field (AccountUpdate.planned_start_date account_data) ;;
        planned_end_date <-
          parse_field (AccountUpdate.planned_end_date account_data) ;;
        t <- now ;;
        revised_start_date <-
          flush_date revised_start_date
                     (AccountModel.revised_start_date account) ;;
        planned_start_date <-
          flush_date planned_start_date
                     (AccountModel.planned_start_date account) ;;
        planned_end_date <-
          flush_date planned_end_date
                     (AccountModel.planned_end_date account) ;;
        let account' :=
          AccountModel.mk
            (AccountModel.id account)
            (setattr (AccountUpdate.client account_data)
                     (AccountModel.client account))
            (setattr (AccountUpdate.project account_data)
                     (AccountModel.project account))
            (setattr (AccountUpdate.vertical account_data)
                     (AccountModel.vertical account))
            (setattr (AccountUpdate.geo account_data)
                     (AccountModel.geo account))
            (setattr (AccountUpdate.start_month account_data)
                     (AccountModel.start_month account))
            revised_start_date
            planned_start_date
            planned_end_date
            (setattr_enum (AccountUpdate.probability account_data)
                          (AccountModel.probability account))
            (setattr (AccountUpdate.opportunity_status account_data)
                     (AccountModel.opportunity_status account))
            (setattr (AccountUpdate.sow_status account_data)
                     (AccountModel.sow_status account))
            (setattr (AccountUpdate.project_status account_data)
                     (AccountModel.project_status account))
            (setattr (AccountUpdate.client_partner account_data)
                     (AccountModel.client_partner account))
            (setattr (AccountUpdate.proposal_anchor account_data)
                     (AccountModel.proposal_anchor account))
            (setattr (AccountUpdate.delivery_partner account_data)
                     (AccountModel.delivery_partner account))
            (setattr (AccountUpdate.comment account_data)
                     (AccountModel.comment account))
            user_id
            (date_of t)
            (AccountModel.added_by account)
            (AccountModel.added_on account) in
        put_store (mk_store (replace_account account' (accounts s))
                            (demands s)) ;;;
        ret (Some account')
    end.

Definition delete_account (account_id : string) : M bool :=
    s <- get_store ;;
    match first_account s account_id with
    | None => ret false
    | Some account =>
        let demands_ := List.length (demands_of s account_id) in
        if (0 <? demands_)%nat then ret false
        else
          put_store
            (mk_store
               (filter (fun b => negb (AccountModel.id b =?
                                       AccountModel.id account))
                       (accounts s))
               (demands s)) ;;;
          ret true
    end.

  (** *** DemandService *)

Definition get_all_demands : M (list DemandModel.t) :=
    s <- get_store ;; ret (demands s).

Definition get_demand_by_id (demand_id : string)
    : M (option DemandModel.t) :=
    s <- get_store ;; ret (first_demand s demand_id).

Definition get_demands_by_account (account_id : string)
    : M (list DemandModel.t) :=
    s <- get_store ;; ret (demands_of s account_id).

Definition create_demand (demand_data : DemandCreate.t)
      (user_id : string) : M DemandModel.t :=
    s <- get_store ;;
    match first_account s (DemandCreate.account_id demand_data) with
    | None => raise not_found_account
    | Some _ =>
        t <- now ;;
        let new_id := ("DEM-" ++ strftime t)%string in
        t' <- now ;;
        let now_ := date_of t' in
        original_start <-
          parse_optional (DemandCreate.original_start_date demand_data) ;;
        allocation_end <-
          parse_optional (DemandCreate.allocation_end_date demand_data) ;;
        let demand := fun sno =>
          DemandModel.mk
            sno
            new_id
            (Some (DemandCreate.account_id demand_data))
            (Some (DemandCreate.project demand_data))
            (Some (DemandCreate.role demand_data))
            (Some (DemandCreate.role_code demand_data))
            (Some (DemandCreate.location demand_data))
            (DemandCreate.revised demand_data)
            original_start
            allocation_end
            (Some (DemandCreate.allocation_percentage demand_data))
            (Some (DemandCreate.probability demand_data))
            (Some (DemandCreate.status demand_data))
            (DemandCreate.resource_mapped demand_data)
            (DemandCreate.comment demand_data)
            user_id now_ user_id now_
            (Some (DemandCreate.start_month demand_data)) in
        insert_demand demand
    end.

  (** [if 'account_id' in update_data: ... raise HTTPException(404)] *)
Definition check_account_id (s : Store) (x : field string) : M unit :=
    match x with
    | Unset => ret tt
    | Given v =>
        match first_account_opt s v with
        | None => raise not_found_account
        | Some _ => ret tt
        end
    end.

Definition update_demand (demand_id : string)
      (demand_data : DemandUpdate.t) (user_id : string)
    : M (option DemandModel.t) :=
    s <- get_store ;;
    match first_demand s demand_id with
    | None => ret None
    | Some demand =>
        check_account_id s (DemandUpdate.account_id demand_data) ;;;
        original_start_date <-
          parse_field (DemandUpdate.original_start_date demand_data) ;;
        allocation_end_date <-
          parse_field (DemandUpdate.allocation_end_date demand_data) ;;
        t <- now ;;
        original_start_date <-
          flush_date original_start_date
                     (DemandModel.original_start_date demand) ;;
        allocation_end_date <-
          flush_date allocation_end_date
                     (DemandModel.allocation_end_date demand) ;;
        bind_given (DemandUpdate.allocation_percentage demand_data) ;;;
        bind_given (DemandUpdate.probability demand_data) ;;;
        let demand' :=
          DemandModel.mk
            (DemandModel.sno demand)
            (DemandModel.id demand)
            (setattr (DemandUpdate.account_id demand_data)
                     (DemandModel.account_id demand))
            (setattr (DemandUpdate.project demand_data)
                     (DemandModel.project demand))
            (setattr (DemandUpdate.role demand_data)
                     (DemandModel.role demand))
            (setattr (DemandUpdate.role_code demand_data)
                     (DemandModel.role_code demand))
            (setattr (DemandUpdate.location demand_data)
                     (DemandModel.location demand))
            (setattr (DemandUpdate.revised demand_data)
                     (DemandModel.revised demand))
            original_start_date
            allocation_end_date
            (setattr (DemandUpdate.allocation_percentage demand_data)
                     (DemandModel.allocation_percentage demand))
            (setattr (DemandUpdate.probability demand_data)
                     (DemandModel.probability demand))
            (setattr (DemandUpdate.status demand_data)
                     (DemandModel.status demand))
            (setattr (DemandUpdate.resource_mapped demand_data)
                     (DemandModel.resource_mapped demand))
            (setattr (DemandUpdate.comment demand_data)
                     (DemandModel.comment demand))
            user_id
            (date_of t)
            (DemandModel.added_by demand)
            (DemandModel.added_on demand)
            (setattr (DemandUpdate.start_month demand_data)
                     (DemandModel.start_month demand)) in
        put_store (mk_store (accounts s)
                            (replace_demand demand' (demands s))) ;;;
        ret (Some demand')
    end.

Definition delete_demand (demand_id : string) : M bool :=
    s <- get_store ;;
    match first_demand s demand_id with
    | None => ret false
    | Some demand =>
        put_store
          (mk_store
             (accounts s)
             (filter (fun e => negb (DemandModel.sno e =?
                                     DemandModel.sno demand)%Z)
                     (demands s))) ;;;
        ret true
    end.

  (** One clone, still without its [sno]. *)
Definition clone_of (source_demand : DemandModel.t) (new_id user_id : string)
      (now_ : date) : Z -> DemandModel.t :=
    fun sno =>
      DemandModel.mk
        sno
        new_id
        (DemandModel.account_id source_demand)
        (DemandModel.project source_demand)
        (DemandModel.role source_demand)
        (DemandModel.role_code source_demand)
        (DemandModel.location source_demand)
        (DemandModel.revised source_demand)
        (DemandModel.original_start_date source_demand)
        (DemandModel.allocation_end_date source_demand)
        (DemandModel.allocation_percentage source_demand)
        (DemandModel.probability source_demand)
        (DemandModel.status source_demand)
        (DemandModel.resource_mapped source_demand)
        (DemandModel.comment source_demand)
        user_id now_ user_id now_
        (DemandModel.start_month source_demand).

  (** The body of [for i in range(count)], from index [i], [n] rounds. *)
Fixpoint clone_loop (source_demand : DemandModel.t) (user_id : string)
      (now_ : date) (i n : nat) : M (list (Z -> DemandModel.t)) :=
    match n with
    | O => ret []
    | S n' =>
        t <- now ;;
        let new_id := ("DEM-CLONE-" ++ strftime t ++ "-" ++ str i)%string in
        let clone := clone_of source_demand new_id user_id now_ in
        clones <- clone_loop source_demand user_id now_ (S i) n' ;;
        ret (clone :: clones)
    end.

Definition clone_demand (demand_id : string) (count : Z) (user_id : string)
    : M (list DemandModel.t) :=
    s <- get_store ;;
    match first_demand s demand_id with
    | None => raise not_found_demand
    | Some source_demand =>
        t <- now ;;
        let now_ := date_of t in
        clones <- clone_loop source_demand user_id now_ 0 (Z.to_nat count) ;;
        insert_demands clones
    end.

End Services.

(* ================================================================== *)
(** ** DashboardService.search *)

(** [Column.contains(query)] is rendered [column LIKE '%' || ? || '%'],
    and the engine is SQLite.  A [string] holds the UTF-8 bytes of a
    Python text.  LIKE reads its pattern and the text as C strings, up to
    their first NUL byte, one UTF-8 character at a time; it folds the case
    of ASCII letters; [%] stands for any run of characters and [_] for any
    one character, also when they come from the bound query (no ESCAPE
    clause is emitted); and it refuses a pattern of more than 50000
    bytes. *)

Definition lower (c : ascii) : ascii :=
  let n := nat_of_ascii c in
  if ((65 <=? n) && (n <=? 90))%nat then ascii_of_nat (n + 32) else c.

Definition percent : ascii := "%"%char.
Definition underscore : ascii := "_"%char.
Definition nul : ascii := "000"%char.

(** The C string: what precedes the first NUL. *)
Fixpoint c_str (s : string) : string :=
  match s with
  | EmptyString => EmptyString
  | String b rest =>
      if Ascii.eqb b nul then EmptyString else String b (c_str rest)
  end.

(** The first byte of a multi-byte character, 0xC0 and above. *)
Definition is_lead (b : ascii) : bool := (192 <=? nat_of_ascii b)%nat.

(** A byte 0x80..0xBF, which continues a character. *)
Definition is_continuation (b : ascii) : bool :=
  ((128 <=? nat_of_ascii b) && (nat_of_ascii b <? 192))%nat.

(** The continuation bytes that open a list of characters ... *)
Fixpoint trail (cs : list string) : string :=
  match cs with
  | String b EmptyString :: cs' =>
      if is_continuation b then String b (trail cs') else EmptyString
  | _ => EmptyString
  end.

(** ... and the characters after them. *)
Fixpoint after_trail (cs : list string) : list string :=
  match cs with
  | String b EmptyString :: cs' =>
      if is_continuation b then after_trail cs' else cs
  | _ => cs
  end.

(** The characters of a text, each as its bytes: a lead byte takes the
    continuation bytes that follow it, any other byte stands alone. *)
Fixpoint utf8_chars (s : string) : list string :=
  match s with
  | EmptyString => []
  | String b rest =>
      let cs := utf8_chars rest in
      if is_lead b then String b (trail cs) :: after_trail cs
      else String b EmptyString :: cs
  end.

(** The case of ASCII letters folded; other bytes are left alone. *)
Fixpoint lower_string (s : string) : string :=
  match s with
  | EmptyString => EmptyString
  | String b rest => String (lower b) (lower_string rest)
  end.

(** [f] holds of some suffix of [s]. *)
Fixpoint any_suffix {X : Type} (f : list X -> bool) (s : list X) : bool :=
  f s || match s with
         | [] => false
         | _ :: s' => any_suffix f s'
         end.

(** The pattern [p] matches the text [s], both as lists of characters. *)
Fixpoint like (p s : list string) : bool :=
  match p with
  | [] => match s with [] => true | _ :: _ => false end
  | c :: p' =>
      if c =? "%" then any_suffix (like p') s
      else
        match s with
        | [] => false
        | d :: s' =>
            ((c =? "_") || (lower_string c =? lower_string d))
            && like p' s'
        end
  end.

(** ['%' || ? || '%'] *)
Definition like_pattern (query : string) : string :=
  ("%" ++ query ++ "%")%string.

(** [column.contains(query)] as a filter condition: a NULL column gives
    NULL, which selects nothing. *)
Definition contains (column : option string) (query : string) : bool :=
  match column with
  | None => false
  | Some v =>
      like (utf8_chars (c_str (like_pattern query))) (utf8_chars (c_str v))
  end.

(** LIKE checks the length of its pattern each time it is called, that
    is as soon as the table has a row; sqlite3's OperationalError, wrapped
    by SQLAlchemy, is the outcome. *)
Definition like_refuses {R : Type} (query : string) (table : list R) : bool :=
  (50000 <? Z.of_nat (String.length (like_pattern query)))%Z
  && match table with [] => false | _ :: _ => true end.

Definition search (query entity : string)
  : M (list AccountModel.t + list DemandModel.t) :=
  s <- get_store ;;
  if entity =? "accounts" then
    if like_refuses query (accounts s) then raise OperationalError
    else
      ret (inl (filter (fun a =>
                   contains (AccountModel.client a) query
                   || contains (AccountModel.project a) query
                   || contains (AccountModel.vertical a) query
                   || contains (AccountModel.opportunity_status a) query)
                (accounts s)))
  else if entity =? "demands" then
    if like_refuses query (demands s) then raise OperationalError
    else
      ret (inr (filter (fun d =>
                   contains (DemandModel.role d) query
                   || contains (DemandModel.project d) query
                   || contains (DemandModel.location d) query
                   || contains (DemandModel.status d) query)
                (demands s)))
  else raise ValueError.

(** *** Substring tests, as the specification words them *)

Fixpoint prefix_with {X : Type} (eq : X -> X -> bool) (q s : list X) : bool :=
  match q with
  | [] => true
  | c :: q' =>
      match s with
      | [] => false
      | d :: s' => eq c d && prefix_with eq q' s'
      end
  end.

Definition eq_ci (c d : string) : bool := lower_string c =? lower_string d.

(** [query] occurs somewhere in [v], character for character. *)
Definition substring_cs (query v : string) : bool :=
  any_suffix (prefix_with String.eqb (utf8_chars query)) (utf8_chars v).

(** [query] occurs somewhere in [v] up to the case of ASCII letters. *)
Definition substring_ci (query v : string) : bool :=
  any_suffix (prefix_with eq_ci (utf8_chars query)) (utf8_chars v).

Definition on_column (test : string -> string -> bool) (query : string)
    (column : option string) : bool :=
  match column with
  | None => false
  | Some v => test query v
  end.

Definition account_fields (a : AccountModel.t) : list (option string) :=
  [AccountModel.client a; AccountModel.project a;
   AccountModel.vertical a; AccountModel.opportunity_status a].

Definition demand_fields (d : DemandModel.t) : list (option string) :=
  [DemandModel.role d; DemandModel.project d;
   DemandModel.location d; DemandModel.status d].



(** The text has no NUL in it. *)
Definition nul_free (s : string) : bool :=
  forallb (fun c => negb (Ascii.eqb c nul)) (list_ascii_of_string s).

(** The query is short enough for [%query%] to pass LIKE's limit. *)
Definition within_like_limit (query : string) : Prop :=
  (Z.of_nat (String.length query) < 49999)%Z.

(** A searched column as LIKE reads it. *)
Definition as_read (column : option string) : option string :=
  option_map c_str column.

(* ================================================================== *)
(** ** Runs of the service *)

Inductive op :=
| CreateAccount (account_data : AccountCreate.t) (user_id : string)
| UpdateAccount (account_id : string) (account_data : AccountUpdate.t)
                (user_id : string)
| DeleteAccount (account_id : string)
| CreateDemand (demand_data : DemandCreate.t) (user_id : string)
| UpdateDemand (demand_id : string) (demand_data : DemandUpdate.t)
               (user_id : string)
| DeleteDemand (demand_id : string)
| CloneDemand (demand_id : string) (count : Z) (user_id : string).

Section Runs.

Variable strptime : string -> option date.
Variable clock : nat -> datetime.

  (** The world after one service call, whatever it returned or raised. *)
Definition run (o : op) (w : World) : World :=
    match o with
    | CreateAccount data user => snd (create_account strptime clock data user w)
    | UpdateAccount id data user =>
        snd (update_account strptime clock id data user w)
    | DeleteAccount id => snd (delete_account id w)
    | CreateDemand data user => snd (create_demand strptime clock data user w)
    | UpdateDemand id data user =>
        snd (update_demand strptime clock id data user w)
    | DeleteDemand id => snd (delete_demand id w)
    | CloneDemand id count user => snd (clone_demand clock id count user w)
    end.

Definition initial : World := mk_world empty_store 0.

Inductive reachable : World -> Prop :=
  | reach_initial : reachable initial
  | reach_run : forall o w, reachable w -> reachable (run o w).

End Runs.

(** Every demand points at a stored account. *)
Definition referential_integrity (s : Store) : Prop :=
  forall d, In d (demands s) ->
    exists a, In a (accounts s) /\
              DemandModel.account_id d = Some (AccountModel.id a).

(* ================================================================== *)
(** * Vocabulary of the properties *)

(** A date field of an update request the service can digest: absent,
    null, or a non-empty string [strptime] accepts.  (Anything else makes
    the call raise before a single column is written.) *)
Definition date_accepted (strptime : string -> option date)
    (x : field string) : Prop :=
  match x with
  | Given (Some s) => truthy s = true /\ strptime s <> None
  | _ => True
  end.

(** The value the column holds after a successful update. *)
Definition written_date (strptime : string -> option date)
    (x : field string) (old : option date) : option date :=
  match x with
  | Unset => old
  | Given None => None
  | Given (Some s) => strptime s
  end.

(** The account an accepted update leaves in the row. *)
Definition updated_account (strptime : string -> option date)
    (account : AccountModel.t) (account_data : AccountUpdate.t)
    (user_id : string) (today : date) : AccountModel.t :=
  AccountModel.mk
    (AccountModel.id account)
    (setattr (AccountUpdate.client account_data)
             (AccountModel.client account))
    (setattr (AccountUpdate.project account_data)
             (AccountModel.project account))
    (setattr (AccountUpdate.vertical account_data)
             (AccountModel.vertical account))
    (setattr (AccountUpdate.geo account_data) (AccountModel.geo account))
    (setattr (AccountUpdate.start_month account_data)
             (AccountModel.start_month account))
    (written_date strptime (AccountUpdate.revised_start_date account_data)
                  (AccountModel.revised_start_date account))
    (written_date strptime (AccountUpdate.planned_start_date account_data)
                  (AccountModel.planned_start_date account))
    (written_date strptime (AccountUpdate.planned_end_date account_data)
                  (AccountModel.planned_end_date account))
    (setattr_enum (AccountUpdate.probability account_data)
                  (AccountModel.probability account))
    (setattr (AccountUpdate.opportunity_status account_data)
             (AccountModel.opportunity_status account))
    (setattr (AccountUpdate.sow_status account_data)
             (AccountModel.sow_status account))
    (setattr (AccountUpdate.project_status account_data)
             (AccountModel.project_status account))
    (setattr (AccountUpdate.client_partner account_data)
             (AccountModel.client_partner account))
    (setattr (AccountUpdate.proposal_anchor account_data)
             (AccountModel.proposal_anchor account))
    (setattr (AccountUpdate.delivery_partner account_data)
             (AccountModel.delivery_partner account))
    (setattr (AccountUpdate.comment account_data)
             (AccountModel.comment account))
    user_id today
    (AccountModel.added_by account)
    (AccountModel.added_on account).





Definition account_dates_accepted (strptime : string -> option date)
    (account_data : AccountUpdate.t) : Prop :=
  date_accepted strptime (AccountUpdate.revised_start_date account_data) /\
  date_accepted strptime (AccountUpdate.planned_start_date account_data) /\
  date_accepted strptime (AccountUpdate.planned_end_date account_data).



(** The demand an accepted update leaves in the row. *)
Definition updated_demand (strptime : string -> option date)
    (demand : DemandModel.t) (demand_data : DemandUpdate.t)
    (user_id : string) (today : date) : DemandModel.t :=
  DemandModel.mk
    (DemandModel.sno demand)
    (DemandModel.id demand)
    (setattr (DemandUpdate.account_id demand_data)
             (DemandModel.account_id demand))
    (setattr (DemandUpdate.project demand_data) (DemandModel.project demand))
    (setattr (DemandUpdate.role demand_data) (DemandModel.role demand))
    (setattr (DemandUpdate.role_code demand_data)
             (DemandModel.role_code demand))
    (setattr (DemandUpdate.location demand_data)
             (DemandModel.location demand))
    (setattr (DemandUpdate.revised demand_data) (DemandModel.revised demand))
    (written_date strptime (DemandUpdate.original_start_date demand_data)
                  (DemandModel.original_start_date demand))
    (written_date strptime (DemandUpdate.allocation_end_date demand_data)
                  (DemandModel.allocation_end_date demand))
    (setattr (DemandUpdate.allocation_percentage demand_data)
             (DemandModel.allocation_percentage demand))
    (setattr (DemandUpdate.probability demand_data)
             (DemandModel.probability demand))
    (setattr (DemandUpdate.status demand_data) (DemandModel.status demand))
    (setattr (DemandUpdate.resource_mapped demand_data)
             (DemandModel.resource_mapped demand))
    (setattr (DemandUpdate.comment demand_data) (DemandModel.comment demand))
    user_id today
    (DemandModel.added_by demand)
    (DemandModel.added_on demand)
    (setattr (DemandUpdate.start_month demand_data)
             (DemandModel.start_month demand)).

Definition demand_dates_accepted (strptime : string -> option date)
    (demand_data : DemandUpdate.t) : Prop :=
  date_accepted strptime (DemandUpdate.original_start_date demand_data) /\
  date_accepted strptime (DemandUpdate.allocation_end_date demand_data).

(** An integer field of an update request SQLite can store: absent,
    null, or within 64 bits. *)
Definition int_accepted (x : field Z) : Prop :=
  match x with
  | Given (Some n) => int64 n = true
  | _ => True
  end.

Definition demand_ints_accepted (demand_data : DemandUpdate.t) : Prop :=
  int_accepted (DemandUpdate.allocation_percentage demand_data) /\
  int_accepted (DemandUpdate.probability demand_data).

(** The [account_id] of the request, when present, is that of a stored
    account. *)
Definition account_ref_accepted (s : Store) (x : field string) : Prop :=
  match x with
  | Unset => True
  | Given v => first_account_opt s v <> None
  end.

(** [x] is the id of a stored account. *)
Definition known_account (s : Store) (x : option string) : Prop :=
  exists a, In a (accounts s) /\ x = Some (AccountModel.id a).


(** An optional date of a create request the service can digest: null,
    the empty string (which it takes for null), or a string [strptime]
    accepts. *)
Definition created_date_accepted (strptime : string -> option date)
    (v : option string) : Prop :=
  match v with
  | Some s => truthy s = false \/ strptime s <> None
  | None => True
  end.

(* ================================================================== *)
(** * A worked run *)

(** 2024-01-15 09:30:00, and a clock that stays within that second. *)
Definition half_past_nine : datetime := mk_datetime 2024 1 15 9 30 0.

Definition same_second (n : nat) : datetime := half_past_nine.

Definition sample_strptime (s : string) : option date :=
  if s =? "2024-02-01" then Some (mk_date 2024 2 1) else None.

Definition acme : AccountCreate.t :=
  AccountCreate.mk "Acme" "Apollo" "Retail" "EMEA" "2024-02"
    None (Some "2024-02-01") (Some EmptyString) FIFTY
    "Open" "Signed" "Active" "Priya" "Omar" "Lena" None.

Definition globex : AccountCreate.t :=
  AccountCreate.mk "Globex" "Hermes" "Banking" "APAC" "2024-03"
    None None None NINETY
    "Won" "Draft" "Planned" "Ines" "Tariq" "Mona" (Some "second account").

Definition engineer : DemandCreate.t :=
  DemandCreate.mk "ACC-20240115093000" "Apollo" "Engineer" "E1" "Pune"
    None (Some "2024-02-01") None 100 90 "Open" None None "2024-02".

(** One account, created at 09:30:00. *)
Definition world_account : World :=
  run sample_strptime same_second (CreateAccount acme "ana") initial.

(** The account and one demand on it. *)
Definition world_demand : World :=
  run sample_strptime same_second (CreateDemand engineer "ana") world_account.

(** After cloning that demand twice. *)
Definition world_clones : World :=
  run sample_strptime same_second
      (CloneDemand "DEM-20240115093000" 2 "ben") world_demand.

Definition comment_only : AccountUpdate.t :=
  AccountUpdate.mk Unset Unset Unset Unset Unset Unset Unset Unset
    None Unset Unset Unset Unset Unset Unset (Given (Some "x")).


Definition clear_planned_start : AccountUpdate.t :=
  AccountUpdate.mk Unset Unset Unset Unset Unset Unset (Given None) Unset
    None Unset Unset Unset Unset Unset Unset Unset.

Definition clear_original_start : DemandUpdate.t :=
  DemandUpdate.mk Unset Unset Unset Unset Unset Unset (Given None) Unset
    Unset Unset Unset Unset Unset Unset.

Definition move_to_unknown : DemandUpdate.t :=
  DemandUpdate.mk (Given (Some "ACC-19990101000000")) Unset Unset (Given
    (Some "E2")) Unset Unset Unset Unset Unset Unset Unset Unset Unset Unset.

Definition null_status : AccountUpdate.t :=
  AccountUpdate.mk Unset Unset Unset Unset Unset Unset Unset Unset
    None (Given None) Unset Unset Unset Unset Unset Unset.

(** The run continued by an update that nulls the account's status. *)
Definition world_null_status : World :=
  run sample_strptime same_second
      (UpdateAccount "ACC-20240115093000" null_status "ben") world_clones.

Definition orphan : DemandCreate.t :=
  DemandCreate.mk "ACC-19990101000000" "Apollo" "Tester" "T1" "Pune"
    None None None 50 75 "Open" None None "2024-02".

(* ================================================================== *)
(** ** DashboardService.get_dashboard_stats *)

(** A Python dict with insertion order: [d[k] = v] overwrites in place or
    appends. *)
Fixpoint dict_set {K V : Type} (eqb : K -> K -> bool) (d : list (K * V))
    (k : K) (v : V) : list (K * V) :=
  match d with
  | [] => [(k, v)]
  | (k', v') :: d' =>
      if eqb k' k then (k, v) :: d' else (k', v') :: dict_set eqb d' k v
  end.

(** [d.get(k)] *)
Fixpoint dict_get {K V : Type} (eqb : K -> K -> bool) (d : list (K * V))
    (k : K) : option V :=
  match d with
  | [] => None
  | (k', v') :: d' => if eqb k' k then Some v' else dict_get eqb d' k
  end.

Definition status_eqb (x y : option string) : bool :=
  match x, y with
  | Some a, Some b => a =? b
  | None, None => true
  | _, _ => false
  end.

(** The distinct values of a column, NULL being one of them. *)
Fixpoint distinct (keys : list (option string)) : list (option string) :=
  match keys with
  | [] => []
  | k :: rest =>
      if existsb (status_eqb k) rest then distinct rest
      else k :: distinct rest
  end.

(** [SELECT status, count(id) ... GROUP BY status]: one row for each
    distinct status with the number of rows that carry it (no id is
    null).  The engine chooses the order of the groups; nothing proved
    below depends on it. *)
Definition group_by_count (keys : list (option string))
  : list (option string * nat) :=
  map (fun k => (k, List.length (filter (status_eqb k) keys)))
      (distinct keys).

(** [d = {}; for status, count in rows: d[status] = count] *)
Definition collect (rows : list (option string * nat))
  : list (option string * nat) :=
  fold_left (fun d row => dict_set status_eqb d (fst row) (snd row)) rows [].

(** Validation of a [Dict[str, int]] field: a [None] key is refused. *)
Fixpoint str_keys (d : list (option string * nat))
  : option (list (string * nat)) :=
  match d with
  | [] => Some []
  | (Some k, v) :: d' => option_map (cons (k, v)) (str_keys d')
  | (None, _) :: _ => None
  end.

Record DashboardStats := mk_stats {
  totalAccounts : nat;
  totalDemands : nat;
  accountsByStatus : list (string * nat);
  demandsByStatus : list (string * nat) }.

(** The pydantic ValidationError raised by the constructor of
    [DashboardStats] is a ValueError. *)
Definition get_dashboard_stats : M DashboardStats :=
  s <- get_store ;;
  let total_accounts := List.length (accounts s) in
  let total_demands := List.length (demands s) in
  let accounts_by_status :=
    collect (group_by_count (map AccountModel.opportunity_status
                                 (accounts s))) in
  let demands_by_status :=
    collect (group_by_count (map DemandModel.status (demands s))) in
  match str_keys accounts_by_status, str_keys demands_by_status with
  | Some by_account, Some by_demand =>
      ret (mk_stats total_accounts total_demands by_account by_demand)
  | _, _ => raise ValueError
  end.

(* ================================================================== *)
(** * Vocabulary of the further properties *)

(** The keys the database keeps unique are unique. *)
Definition unique_keys (s : Store) : Prop :=
  NoDup (map AccountModel.id (accounts s)) /\
  NoDup (map DemandModel.id (demands s)) /\
  NoDup (map DemandModel.sno (demands s)).

(** A stored probability is one of the four allowed values. *)
Definition probability_allowed (a : AccountModel.t) : Prop :=
  exists p, AccountModel.probability a = Some (value p).

(** Pending rows that take the [sno] handed to them and whose id does not
    depend on it. *)
Definition numbered (pending : list (Z -> DemandModel.t)) : Prop :=
  forall mk, In mk pending ->
    forall n m, DemandModel.sno (mk n) = n /\
                DemandModel.id (mk n) = DemandModel.id (mk m).

(** The column is not NULL. *)
Definition not_null (column : option string) : bool :=
  match column with
  | Some _ => true
  | None => false
  end.

(** How many rows carry the status [k]. *)
Definition status_count (k : string) (column : list (option string)) : nat :=
  List.length (filter (fun x => opt_eqb x k) column).

(** An optional date of a create request [strptime] refuses. *)
Definition created_date_refused (strptime : string -> option date)
    (v : option string) : Prop :=
  exists s, v = Some s /\ truthy s = true /\ strptime s = None.

(** The demand a successful create stores, but for its [sno]. *)
Definition created_demand (strptime : string -> option date)
    (demand_data : DemandCreate.t) (user_id new_id : string) (today : date)
  : Z -> DemandModel.t :=
  fun sno =>
    DemandModel.mk
      sno new_id
      (Some (DemandCreate.account_id demand_data))
      (Some (DemandCreate.project demand_data))
      (Some (DemandCreate.role demand_data))
      (Some (DemandCreate.role_code demand_data))
      (Some (DemandCreate.location demand_data))
      (DemandCreate.revised demand_data)
      (match DemandCreate.original_start_date demand_data with
       | Some s => if truthy s then strptime s else None
       | None => None
       end)
      (match DemandCreate.allocation_end_date demand_data with
       | Some s => if truthy s then strptime s else None
       | None => None
       end)
      (Some (DemandCreate.allocation_percentage demand_data))
      (Some (DemandCreate.probability demand_data))
      (Some (DemandCreate.status demand_data))
      (DemandCreate.resource_mapped demand_data)
      (DemandCreate.comment demand_data)
      user_id today user_id today
      (Some (DemandCreate.start_month demand_data)).

(** Every field the request leaves out has its old value, and so have
    the columns no update ever writes. *)
Definition demand_frame (demand_data : DemandUpdate.t)
    (old new : DemandModel.t) : Prop :=
  (DemandUpdate.account_id demand_data = Unset ->
   DemandModel.account_id new = DemandModel.account_id old) /\
  (DemandUpdate.project demand_data = Unset ->
   DemandModel.project new = DemandModel.project old) /\
  (DemandUpdate.role demand_data = Unset ->
   DemandModel.role new = DemandModel.role old) /\
  (DemandUpdate.role_code demand_data = Unset ->
   DemandModel.role_code new = DemandModel.role_code old) /\
  (DemandUpdate.location demand_data = Unset ->
   DemandModel.location new = DemandModel.location old) /\
  (DemandUpdate.revised demand_data = Unset ->
   DemandModel.revised new = DemandModel.revised old) /\
  (DemandUpdate.original_start_date demand_data = Unset ->
   DemandModel.original_start_date new = DemandModel.original_start_date old)
  /\
  (DemandUpdate.allocation_end_date demand_data = Unset ->
   DemandModel.allocation_end_date new = DemandModel.allocation_end_date old)
  /\
  (DemandUpdate.allocation_percentage demand_data = Unset ->
   DemandModel.allocation_percentage new
   = DemandModel.allocation_percentage old) /\
  (DemandUpdate.probability demand_data = Unset ->
   DemandModel.probability new = DemandModel.probability old) /\
  (DemandUpdate.status demand_data = Unset ->
   DemandModel.status new = DemandModel.status old) /\
  (DemandUpdate.resource_mapped demand_data = Unset ->
   DemandModel.resource_mapped new = DemandModel.resource_mapped old) /\
  (DemandUpdate.comment demand_data = Unset ->
   DemandModel.comment new = DemandModel.comment old) /\
  (DemandUpdate.start_month demand_data = Unset ->
   DemandModel.start_month new = DemandModel.start_month old) /\
  DemandModel.sno new = DemandModel.sno old /\
  DemandModel.id new = DemandModel.id old /\
  DemandModel.added_by new = DemandModel.added_by old /\
  DemandModel.added_on new = DemandModel.added_on old.

(** Every field the request carries is in the row, a date string as the
    date it parses to, and the audit stamp is the caller and [today]. *)
Definition demand_written (strptime : string -> option date)
    (demand_data : DemandUpdate.t) (user_id : string) (today : date)
    (new : DemandModel.t) : Prop :=
  (forall v, DemandUpdate.account_id demand_data = Given v ->
             DemandModel.account_id new = v) /\
  (forall v, DemandUpdate.project demand_data = Given v ->
             DemandModel.project new = v) /\
  (forall v, DemandUpdate.role demand_data = Given v ->
             DemandModel.role new = v) /\
  (forall v, DemandUpdate.role_code demand_data = Given v ->
             DemandModel.role_code new = v) /\
  (forall v, DemandUpdate.location demand_data = Given v ->
             DemandModel.location new = v) /\
  (forall v, DemandUpdate.revised demand_data = Given v ->
             DemandModel.revised new = v) /\
  (forall v, DemandUpdate.original_start_date demand_data = Given v ->
             DemandModel.original_start_date new
             = match v with Some s => strptime s | None => None end) /\
  (forall v, DemandUpdate.allocation_end_date demand_data = Given v ->
             DemandModel.allocation_end_date new
             = match v with Some s => strptime s | None => None end) /\
  (forall v, DemandUpdate.allocation_percentage demand_data = Given v ->
             DemandModel.allocation_percentage new = v) /\
  (forall v, DemandUpdate.probability demand_data = Given v ->
             DemandModel.probability new = v) /\
  (forall v, DemandUpdate.status demand_data = Given v ->
             DemandModel.status new = v) /\
  (forall v, DemandUpdate.resource_mapped demand_data = Given v ->
             DemandModel.resource_mapped new = v) /\
  (forall v, DemandUpdate.comment demand_data = Given v ->
             DemandModel.comment new = v) /\
  (forall v, DemandUpdate.start_month demand_data = Given v ->
             DemandModel.start_month new = v) /\
  DemandModel.last_updated_by new = user_id /\
  DemandModel.updated_on new = today.

(** A date field of an update request the parsing loop lets through:
    absent, null, the empty string, or a string [strptime] accepts. *)
Definition date_digestible (strptime : string -> option date)
    (x : field string) : Prop :=
  match x with
  | Given v => created_date_accepted strptime v
  | Unset => True
  end.

(** [x] is given as the empty string. *)
Definition date_empty (x : field string) : Prop :=
  x = Given (Some EmptyString).

(** A request that gives [planned_end_date] as the empty string. *)
Definition empty_planned_end : AccountUpdate.t :=
  AccountUpdate.mk Unset Unset Unset Unset Unset Unset Unset
    (Given (Some EmptyString))
    None Unset Unset Unset Unset Unset Unset (Given (Some "x")).

(** A request whose [allocation_percentage] is 2^63. *)
Definition too_large : DemandUpdate.t :=
  DemandUpdate.mk Unset Unset Unset Unset Unset Unset Unset Unset
    (Given (Some (2 ^ 63)%Z)) Unset Unset Unset Unset Unset.

(* ================================================================== *)
(** * Properties *)

(** ** Queries *)

Lemma first_account_none (s : Store) (key : string) :
  first_account s key = None <->
  (forall a, In a (accounts s) -> AccountModel.id a <> key).
Proof.
  unfold first_account. split.
  - intros H a Ha E.
    pose proof (find_none _ _ H a Ha) as F. cbn in F.
    apply String.eqb_neq in F. contradiction.
  - intros H. destruct (find _ _) as [a|] eqn:F; [|reflexivity].
    apply find_some in F as [Ha E]. apply String.eqb_eq in E.
    exfalso. exact (H a Ha E).
Qed.

Lemma first_account_some (s : Store) (key : string) (a : AccountModel.t) :
  first_account s key = Some a -> In a (accounts s) /\ AccountModel.id a = key.
Proof.
  unfold first_account. intros F. apply find_some in F as [Ha E].
  apply String.eqb_eq in E. auto.
Qed.

Lemma first_account_opt_none (s : Store) (key : option string) :
  (forall a, In a (accounts s) -> key <> Some (AccountModel.id a)) ->
  first_account_opt s key = None.
Proof.
  intros H. destruct key as [k|]; [|reflexivity]. cbn.
  apply first_account_none. intros a Ha E. apply (H a Ha). now subst.
Qed.

Lemma first_demand_some (s : Store) (key : string) (d : DemandModel.t) :
  first_demand s key = Some d -> In d (demands s) /\ DemandModel.id d = key.
Proof.
  unfold first_demand. intros F. apply find_some in F as [Hd E].
  apply String.eqb_eq in E. auto.
Qed.

Lemma opt_eqb_true (x : option string) (key : string) :
  opt_eqb x key = true <-> x = Some key.
Proof.
  destruct x as [v|]; cbn.
  - rewrite String.eqb_eq. split; congruence.
  - split; discriminate.
Qed.

(** The count of linked demands is positive exactly when one exists. *)
Lemma demands_of_count (s : Store) (key : string) :
  (0 <? List.length (demands_of s key))%nat = true <->
  exists d, In d (demands s) /\ DemandModel.account_id d = Some key.
Proof.
  unfold demands_of. rewrite Nat.ltb_lt. split.
  - destruct (filter _ _) as [|d l] eqn:F; cbn; [lia|]. intros _.
    assert (In d (d :: l)) as Hd by (left; reflexivity).
    rewrite <- F in Hd. apply filter_In in Hd as [Hd E].
    exists d. split; [assumption|]. now apply opt_eqb_true.
  - intros (d & Hd & E).
    assert (In d (filter (fun d => opt_eqb (DemandModel.account_id d) key)
                         (demands s))) as F.
    { apply filter_In. split; [assumption|]. now apply opt_eqb_true. }
    destruct (filter _ _); [destruct F | cbn; lia].
Qed.

Lemma find_filter_other (key gone : string) (l : list AccountModel.t) :
  key <> gone ->
  find (fun a => AccountModel.id a =? key)
       (filter (fun b => negb (AccountModel.id b =? gone)) l)
  = find (fun a => AccountModel.id a =? key) l.
Proof.
  intros N. induction l as [|a l IH]; cbn; [reflexivity|].
  destruct (AccountModel.id a =? gone) eqn:G; cbn.
  - apply String.eqb_eq in G.
    destruct (AccountModel.id a =? key) eqn:K; [|assumption].
    apply String.eqb_eq in K. congruence.
  - rewrite IH. reflexivity.
Qed.

Lemma find_filter_gone (gone : string) (l : list AccountModel.t) :
  find (fun a => AccountModel.id a =? gone)
       (filter (fun b => negb (AccountModel.id b =? gone)) l) = None.
Proof.
  induction l as [|a l IH]; cbn; [reflexivity|].
  destruct (AccountModel.id a =? gone) eqn:G; cbn; [assumption|].
  rewrite G. assumption.
Qed.

(** ** Account deletion *)

(** C2. [delete_account] returns [False] and leaves the store as it is
    when the id is absent or when a demand references the account; when the
    account exists and no demand references it, it returns [True], the
    account can no longer be fetched, every other account is fetched as
    before and the demands are untouched. *)
Theorem delete_account_outcomes (w : World) (account_id : string) :
  (first_account (db w) account_id = None ->
   delete_account account_id w = (Ok false, w))
  /\
  ((exists d, In d (demands (db w)) /\
              DemandModel.account_id d = Some account_id) ->
   delete_account account_id w = (Ok false, w))
  /\
  (forall a,
      first_account (db w) account_id = Some a ->
      (forall d, In d (demands (db w)) ->
                 DemandModel.account_id d <> Some account_id) ->
      exists w',
        delete_account account_id w = (Ok true, w') /\
        get_account_by_id account_id w' = (Ok None, w') /\
        (forall key, key <> account_id ->
                     first_account (db w') key = first_account (db w) key) /\
        (forall b, In b (accounts (db w)) -> AccountModel.id b <> account_id ->
                   In b (accounts (db w'))) /\
        demands (db w') = demands (db w)).
Proof.
  destruct w as [s n]. cbn [db].
  split; [|split].
  - intros F. unfold delete_account, bind, get_store, ret. cbn [db].
    rewrite F. reflexivity.
  - intros E. unfold delete_account, bind, get_store, ret. cbn [db].
    destruct (first_account s account_id); [|reflexivity].
    apply demands_of_count in E. rewrite E. reflexivity.
  - intros a F Hnone.
    pose proof (first_account_some _ _ F) as [Ha Eid].
    assert ((0 <? List.length (demands_of s account_id))%nat = false) as C.
    { destruct (0 <? _)%nat eqn:C; [|reflexivity].
      apply demands_of_count in C as (d & Hd & E).
      exfalso. exact (Hnone d Hd E). }
    eexists. split.
    { unfold delete_account, bind, get_store, put_store, ret. cbn [db ticks].
      rewrite F, C. reflexivity. }
    cbn [db accounts demands]. rewrite Eid. split; [|split; [|split]].
    + unfold get_account_by_id, bind, get_store, ret, first_account.
      cbn [db accounts]. rewrite find_filter_gone. reflexivity.
    + intros key N. unfold first_account. cbn [accounts].
      now apply find_filter_other.
    + intros b Hb N. apply filter_In. split; [assumption|].
      apply negb_true_iff. now apply String.eqb_neq.
    + reflexivity.
Qed.

(** ** Failing demand writes *)

(** C7. Creating a demand whose [account_id] is the id of no stored
    account raises the 404 "Referenced account not found" and stores
    nothing. *)
Theorem create_demand_unknown_account
    (strptime : string -> option date) (clock : nat -> datetime)
    (w : World) (demand_data : DemandCreate.t) (user_id : string) :
  (forall a, In a (accounts (db w)) ->
             AccountModel.id a <> DemandCreate.account_id demand_data) ->
  exists w',
    create_demand strptime clock demand_data user_id w
    = (Raise (HTTPException 404 "Referenced account not found"), w') /\
    demands (db w') = demands (db w) /\
    db w' = db w.
Proof.
  intros H. apply first_account_none in H.
  exists w. unfold create_demand, bind, get_store. cbn.
  rewrite H. cbn. auto.
Qed.

(** C6. Updating an existing demand with an [account_id] that is the id
    of no stored account raises the 404 "Referenced account not found";
    the demand is still stored with every field as before. *)
Theorem update_demand_unknown_account
    (strptime : string -> option date) (clock : nat -> datetime)
    (w : World) (demand_id : string) (demand : DemandModel.t)
    (demand_data : DemandUpdate.t) (new_account : option string)
    (user_id : string) :
  first_demand (db w) demand_id = Some demand ->
  DemandUpdate.account_id demand_data = Given new_account ->
  (forall a, In a (accounts (db w)) ->
             new_account <> Some (AccountModel.id a)) ->
  exists w',
    update_demand strptime clock demand_id demand_data user_id w
    = (Raise (HTTPException 404 "Referenced account not found"), w') /\
    get_demand_by_id demand_id w' = (Ok (Some demand), w') /\
    db w' = db w.
Proof.
  intros F G H. apply first_account_opt_none in H.
  exists w. unfold update_demand, get_demand_by_id, bind, get_store. cbn.
  rewrite F, G. cbn. rewrite H. cbn. auto.
Qed.

(** ** Cloning nothing *)

(** C10. Called with [count = 0] on a stored demand, [clone_demand]
    raises nothing, returns the empty list and leaves the store as it
    was: the service itself does not insist on the range 1..10. *)
Theorem clone_demand_zero
    (clock : nat -> datetime) (w : World) (demand_id : string)
    (source_demand : DemandModel.t) (user_id : string) :
  first_demand (db w) demand_id = Some source_demand ->
  exists w',
    clone_demand clock demand_id 0 user_id w = (Ok [], w') /\
    db w' = db w.
Proof.
  intros F. destruct w as [[acc dem] n]. cbn in F.
  eexists. split.
  - unfold clone_demand, bind, get_store, now, insert_demands, put_store, ret.
    cbn. rewrite F. cbn. rewrite app_nil_r. reflexivity.
  - reflexivity.
Qed.

(** ** Steps that only read or raise *)

Lemma parse_optional_pure (strptime : string -> option date)
    (v : option string) (w : World) :
  snd (parse_optional strptime v w) = w.
Proof.
  destruct v as [s|]; cbn; [|reflexivity].
  destruct (truthy s); [|reflexivity].
  unfold bind, parse. destruct (strptime s); reflexivity.
Qed.

Lemma parse_field_pure (strptime : string -> option date)
    (x : field string) (w : World) :
  snd (parse_field strptime x w) = w.
Proof.
  destruct x as [|[s|]]; cbn; try reflexivity.
  destruct (truthy s); [|reflexivity].
  unfold bind, parse. destruct (strptime s); reflexivity.
Qed.

Lemma flush_date_pure (x : field pydate) (old : option date) (w : World) :
  snd (flush_date x old w) = w.
Proof. destruct x as [|[[d|s]|]]; reflexivity. Qed.

Lemma bind_int_pure (v : option Z) (w : World) :
  snd (bind_int v w) = w.
Proof. destruct v as [n|]; cbn; [destruct (int64 n)|]; reflexivity. Qed.

Lemma bind_given_pure (x : field Z) (w : World) :
  snd (bind_given x w) = w.
Proof. destruct x as [|v]; [reflexivity|apply bind_int_pure]. Qed.

Lemma bind_given_accepted (x : field Z) (w : World) :
  int_accepted x -> bind_given x w = (Ok tt, w).
Proof.
  destruct x as [|[n|]]; cbn; try reflexivity. now intros ->.
Qed.

Lemma bind_given_ok (x : field Z) (w w' : World) (u : unit) :
  bind_given x w = (Ok u, w') -> int_accepted x.
Proof.
  destruct x as [|[n|]]; cbn; trivial.
  destruct (int64 n); [reflexivity|discriminate].
Qed.

(** Splits a step whose only effect may be an exception. *)
Ltac split_step m P :=
  let r := fresh "r" in
  let w' := fresh "w" in
  let E := fresh "E" in
  destruct m as [r w'] eqn:E; cbn [snd] in P; subst w';
  destruct r; [|cbn [snd]; assumption].

Ltac pure_step :=
  match goal with
  | |- context [parse_optional ?sp ?v ?w] =>
      let P := fresh "P" in
      pose proof (parse_optional_pure sp v w) as P;
      split_step (parse_optional sp v w) P
  | |- context [parse_field ?sp ?x ?w] =>
      let P := fresh "P" in
      pose proof (parse_field_pure sp x w) as P;
      split_step (parse_field sp x w) P
  | |- context [flush_date ?x ?old ?w] =>
      let P := fresh "P" in
      pose proof (flush_date_pure x old w) as P;
      split_step (flush_date x old w) P
  | |- context [bind_given ?x ?w] =>
      let P := fresh "P" in
      pose proof (bind_given_pure x w) as P;
      split_step (bind_given x w) P
  | |- context [bind_int ?x ?w] =>
      let P := fresh "P" in
      pose proof (bind_int_pure x w) as P;
      split_step (bind_int x w) P
  end.

(** ** Partial updates *)

Lemma parse_field_accepted (strptime : string -> option date)
    (x : field string) :
  date_accepted strptime x ->
  exists y,
    (forall w, parse_field strptime x w = (Ok y, w)) /\
    (forall old w, flush_date y old w = (Ok (written_date strptime x old), w)).
Proof.
  destruct x as [|[s|]]; cbn.
  - intros _. exists Unset. split; reflexivity.
  - intros [T P]. destruct (strptime s) as [d|] eqn:E; [|congruence].
    exists (Given (Some (PyDate d))). split; intros; [|reflexivity].
    rewrite T. unfold bind, parse. rewrite E. reflexivity.
  - intros _. exists (Given None). split; reflexivity.
Qed.

Lemma find_replace_account_same (a a' : AccountModel.t) (key : string)
    (l : list AccountModel.t) :
  AccountModel.id a' = key ->
  find (fun b => AccountModel.id b =? key) l = Some a ->
  find (fun b => AccountModel.id b =? key) (replace_account a' l) = Some a'.
Proof.
  intros <-. induction l as [|b l IH]; cbn; [discriminate|].
  destruct (AccountModel.id b =? AccountModel.id a') eqn:K.
  - intros _. rewrite String.eqb_refl. reflexivity.
  - rewrite K. exact IH.
Qed.


Lemma find_replace_demand_same (d d' : DemandModel.t) (key : string)
    (l : list DemandModel.t) :
  DemandModel.id d' = key ->
  DemandModel.sno d' = DemandModel.sno d ->
  find (fun e => DemandModel.id e =? key) l = Some d ->
  find (fun e => DemandModel.id e =? key) (replace_demand d' l) = Some d'.
Proof.
  intros <- S. induction l as [|e l IH]; cbn; [discriminate|].
  destruct (DemandModel.id e =? DemandModel.id d') eqn:K.
  - intros [= ->]. rewrite S, Z.eqb_refl, String.eqb_refl. reflexivity.
  - intros F. destruct (DemandModel.sno e =? DemandModel.sno d')%Z.
    + rewrite String.eqb_refl. reflexivity.
    + rewrite K. exact (IH F).
Qed.

Lemma update_account_run
    (strptime : string -> option date) (clock : nat -> datetime)
    (w : World) (account_id : string) (account : AccountModel.t)
    (account_data : AccountUpdate.t) (user_id : string) :
  first_account (db w) account_id = Some account ->
  account_dates_accepted strptime account_data ->
  let account' := updated_account strptime account account_data user_id
                                  (date_of (clock (ticks w))) in
  update_account strptime clock account_id account_data user_id w
  = (Ok (Some account'),
     mk_world (mk_store (replace_account account' (accounts (db w)))
                        (demands (db w)))
              (S (ticks w))).
Proof.
  intros F (A1 & A2 & A3) account'.
  destruct (parse_field_accepted strptime _ A1) as (y1 & P1 & Q1).
  destruct (parse_field_accepted strptime _ A2) as (y2 & P2 & Q2).
  destruct (parse_field_accepted strptime _ A3) as (y3 & P3 & Q3).
  unfold update_account, bind, get_store, put_store, now, ret.
  cbn [db ticks]. rewrite F, P1, P2, P3, Q1, Q2, Q3. reflexivity.
Qed.

Ltac frame_fields :=
  repeat match goal with
         | |- _ /\ _ => split
         end;
  try reflexivity;
  try (intros; cbn;
       match goal with
       | H : _ = Unset |- _ => rewrite H; reflexivity
       | H : _ = Given _ |- _ => rewrite H; reflexivity
       | H : _ = None |- _ => rewrite H; reflexivity
       | H : _ = Some _ |- _ => rewrite H; reflexivity
       end).

Lemma parse_flush_ok (strptime : string -> option date) (x : field string)
    (y : field pydate) (old d : option date) (w w1 w2 w3 : World) :
  parse_field strptime x w = (Ok y, w1) ->
  flush_date y old w2 = (Ok d, w3) ->
  date_accepted strptime x.
Proof.
  destruct x as [|[s|]]; cbn; trivial.
  destruct (truthy s); [|intros [= <- _]; cbn; discriminate].
  unfold bind, parse. destruct (strptime s); [|discriminate].
  intros _ _. split; [reflexivity|discriminate].
Qed.

(** A step of an update either goes through or makes the whole call
    raise with the store as it was. *)
Ltac raise_or_go m P :=
  let w' := fresh "w" in
  destruct m as [[?y|?e] w'] eqn:?E; cbn [snd] in P; subst w';
  [|right; eexists; split; reflexivity].

Ltac update_step :=
  match goal with
  | |- context [parse_field ?sp ?x ?w] =>
      let P := fresh "P" in
      pose proof (parse_field_pure sp x w) as P;
      raise_or_go (parse_field sp x w) P
  | |- context [flush_date ?x ?old ?w] =>
      let P := fresh "P" in
      pose proof (flush_date_pure x old w) as P;
      raise_or_go (flush_date x old w) P
  | |- context [bind_given ?x ?w] =>
      let P := fresh "P" in
      pose proof (bind_given_pure x w) as P;
      raise_or_go (bind_given x w) P
  end.

(** An update of a stored account whose dates are not all acceptable
    raises and writes nothing. *)
Lemma update_account_cases
    (strptime : string -> option date) (clock : nat -> datetime)
    (w : World) (account_id : string) (account : AccountModel.t)
    (account_data : AccountUpdate.t) (user_id : string) :
  first_account (db w) account_id = Some account ->
  account_dates_accepted strptime account_data \/
  exists e,
    fst (update_account strptime clock account_id account_data user_id w)
    = Raise e /\
    db (snd (update_account strptime clock account_id account_data user_id w))
    = db w.
Proof.
  intros F. unfold update_account, bind, get_store. cbn [db]. rewrite F.
  do 3 update_step. unfold now. cbn [db ticks]. do 3 update_step.
  left. repeat split; eapply parse_flush_ok; eassumption.
Qed.








Lemma check_account_id_accepted (s : Store) (x : field string) (w : World) :
  account_ref_accepted s x -> check_account_id s x w = (Ok tt, w).
Proof.
  destruct x as [|v]; cbn; [reflexivity|].
  destruct (first_account_opt s v); [reflexivity|congruence].
Qed.

Lemma check_account_id_cases (s : Store) (x : field string) (w : World) :
  (check_account_id s x w = (Ok tt, w) /\ account_ref_accepted s x) \/
  check_account_id s x w = (Raise not_found_account, w).
Proof.
  destruct x as [|v]; cbn; [left; auto|].
  destruct (first_account_opt s v); [left|right; reflexivity].
  split; [reflexivity|discriminate].
Qed.

Lemma update_demand_run
    (strptime : string -> option date) (clock : nat -> datetime)
    (w : World) (demand_id : string) (demand : DemandModel.t)
    (demand_data : DemandUpdate.t) (user_id : string) :
  first_demand (db w) demand_id = Some demand ->
  account_ref_accepted (db w) (DemandUpdate.account_id demand_data) ->
  demand_dates_accepted strptime demand_data ->
  demand_ints_accepted demand_data ->
  let demand' := updated_demand strptime demand demand_data user_id
                                (date_of (clock (ticks w))) in
  update_demand strptime clock demand_id demand_data user_id w
  = (Ok (Some demand'),
     mk_world (mk_store (accounts (db w))
                        (replace_demand demand' (demands (db w))))
              (S (ticks w))).
Proof.
  intros F R (A1 & A2) (I1 & I2) demand'.
  destruct (parse_field_accepted strptime _ A1) as (y1 & P1 & Q1).
  destruct (parse_field_accepted strptime _ A2) as (y2 & P2 & Q2).
  unfold update_demand, bind, get_store, put_store, now, ret.
  cbn [db ticks].
  rewrite F, (check_account_id_accepted _ _ _ R), P1, P2, Q1, Q2.
  rewrite (bind_given_accepted _ _ I1), (bind_given_accepted _ _ I2).
  reflexivity.
Qed.

(** C9. In a partial update an optional date given as an explicit null
    is written: the stored date becomes [None].  Left out of the request,
    the same field keeps the stored date.  This holds for the three
    planning dates of an account and for the two dates of a demand, in
    every update the store accepts (dates digestible, a known account, and
    for a demand integers within 64 bits). *)
Theorem update_null_date_clears
    (strptime : string -> option date) (clock : nat -> datetime)
    (w : World) (user_id : string) :
  (forall account_id account account_data,
      first_account (db w) account_id = Some account ->
      account_dates_accepted strptime account_data ->
      exists account' w',
        update_account strptime clock account_id account_data user_id w
        = (Ok (Some account'), w') /\
        first_account (db w') account_id = Some account' /\
        (AccountUpdate.revised_start_date account_data = Given None ->
         AccountModel.revised_start_date account' = None) /\
        (AccountUpdate.planned_start_date account_data = Given None ->
         AccountModel.planned_start_date account' = None) /\
        (AccountUpdate.planned_end_date account_data = Given None ->
         AccountModel.planned_end_date account' = None) /\
        (AccountUpdate.revised_start_date account_data = Unset ->
         AccountModel.revised_start_date account'
         = AccountModel.revised_start_date account) /\
        (AccountUpdate.planned_start_date account_data = Unset ->
         AccountModel.planned_start_date account'
         = AccountModel.planned_start_date account) /\
        (AccountUpdate.planned_end_date account_data = Unset ->
         AccountModel.planned_end_date account'
         = AccountModel.planned_end_date account))
  /\
  (forall demand_id demand demand_data,
      first_demand (db w) demand_id = Some demand ->
      account_ref_accepted (db w) (DemandUpdate.account_id demand_data) ->
      demand_dates_accepted strptime demand_data ->
      demand_ints_accepted demand_data ->
      exists demand' w',
        update_demand strptime clock demand_id demand_data user_id w
        = (Ok (Some demand'), w') /\
        first_demand (db w') demand_id = Some demand' /\
        (DemandUpdate.original_start_date demand_data = Given None ->
         DemandModel.original_start_date demand' = None) /\
        (DemandUpdate.allocation_end_date demand_data = Given None ->
         DemandModel.allocation_end_date demand' = None) /\
        (DemandUpdate.original_start_date demand_data = Unset ->
         DemandModel.original_start_date demand'
         = DemandModel.original_start_date demand) /\
        (DemandUpdate.allocation_end_date demand_data = Unset ->
         DemandModel.allocation_end_date demand'
         = DemandModel.allocation_end_date demand)).
Proof.
  split.
  - intros account_id account account_data F A.
    pose proof (first_account_some _ _ F) as [_ Eid].
    eexists. eexists. split; [exact (update_account_run clock _ _ _ F A)|].
    cbn [db accounts]. split.
    + unfold first_account. cbn [accounts].
      apply find_replace_account_same with (a := account);
        [exact Eid|exact F].
    + frame_fields.
  - intros demand_id demand demand_data F R A Z.
    pose proof (first_demand_some _ _ F) as [_ Eid].
    eexists. eexists.
    split; [exact (update_demand_run clock _ _ _ F R A Z)|].
    cbn [db demands]. split.
    + unfold first_demand. cbn [demands].
      apply find_replace_demand_same with (d := demand);
        [exact Eid|reflexivity|exact F].
    + frame_fields.
Qed.

(** ** Referential integrity *)

Lemma flush_inserts_rows (pending : list (Z -> DemandModel.t)) :
  forall table rows,
    flush_inserts table pending = Some rows ->
    Forall2 (fun mk row => exists sno, row = mk sno) pending rows.
Proof.
  induction pending as [|mk rest IH]; intros table rows; cbn.
  - intros [= <-]. constructor.
  - destruct (existsb _ table); [discriminate|].
    destruct (flush_inserts _ rest) as [rows'|] eqn:F; [|discriminate].
    cbn. intros [= <-]. constructor; [eauto|]. exact (IH _ _ F).
Qed.

(** The loop of [clone_demand] never raises and only reads the clock:
    round [k] builds the clone with index [i + k] and the timestamp of
    reading [ticks w + k]. *)
Lemma clone_loop_run (clock : nat -> datetime)
    (source_demand : DemandModel.t) (user_id : string) (now_ : date)
    (n : nat) :
  forall i w,
    clone_loop clock source_demand user_id now_ i n w
    = (Ok (map (fun k =>
                  clone_of source_demand
                    ("DEM-CLONE-" ++ strftime (clock (ticks w + k)) ++ "-"
                     ++ str (i + k))%string
                    user_id now_)
               (seq 0 n)),
       mk_world (db w) (ticks w + n)).
Proof.
  induction n as [|n IH]; intros i w.
  - cbn. unfold ret. destruct w as [s t]. cbn. now rewrite Nat.add_0_r.
  - cbn [clone_loop]. unfold bind at 1. unfold now at 1.
    unfold bind at 1. rewrite IH. unfold ret. cbn [db ticks seq map].
    rewrite !Nat.add_0_r, <- seq_shift, map_map.
    f_equal; [|f_equal; lia]. f_equal. f_equal.
    apply map_ext. intros k.
    replace (S (ticks w) + k) with (ticks w + S k) by lia.
    replace (S i + k) with (i + S k) by lia. reflexivity.
Qed.

Lemma known_account_ids (s s' : Store) (x : option string) :
  map AccountModel.id (accounts s') = map AccountModel.id (accounts s) ->
  known_account s x -> known_account s' x.
Proof.
  intros E (a & Ha & ->).
  apply (in_map AccountModel.id) in Ha. rewrite <- E in Ha.
  apply in_map_iff in Ha as (b & Eb & Hb).
  exists b. split; [assumption|]. now rewrite Eb.
Qed.

Lemma replace_account_ids (a' : AccountModel.t) (l : list AccountModel.t) :
  map AccountModel.id (replace_account a' l) = map AccountModel.id l.
Proof.
  unfold replace_account. rewrite map_map. apply map_ext. intros b.
  destruct (AccountModel.id b =? AccountModel.id a') eqn:K; [|reflexivity].
  apply String.eqb_eq in K. now rewrite K.
Qed.

Section Integrity.

Variable strptime : string -> option date.
Variable clock : nat -> datetime.

Lemma create_account_integrity account_data user_id w :
    referential_integrity (db w) ->
    referential_integrity
      (db (snd (create_account strptime clock account_data user_id w))).
  Proof.
    intros I. unfold create_account, bind, now. cbn [db ticks].
    repeat pure_step.
    unfold insert_account, bind, get_store, put_store, raise, ret.
    cbn [db ticks accounts].
    destruct (existsb _ _); cbn [snd db]; [exact I|].
    intros dm Hd. cbn [demands] in Hd. destruct (I dm Hd) as (b & Hb & Eb).
    exists b. cbn [accounts]. split; [apply in_or_app; now left|exact Eb].
  Qed.

Lemma update_account_integrity account_id account_data user_id w :
    referential_integrity (db w) ->
    referential_integrity
      (db (snd (update_account strptime clock account_id account_data
                               user_id w))).
  Proof.
    intros I. unfold update_account, bind, get_store. cbn [db].
    destruct (first_account (db w) account_id) as [a|]; [|exact I].
    repeat pure_step.
    unfold now. cbn [db ticks].
    repeat pure_step.
    unfold put_store, ret. cbn [snd db ticks].
    intros dm Hd. cbn [demands] in Hd.
    apply known_account_ids with (s := db w); [|exact (I dm Hd)].
    cbn [accounts]. apply replace_account_ids.
  Qed.

Lemma delete_account_integrity account_id w :
    referential_integrity (db w) ->
    referential_integrity (db (snd (delete_account account_id w))).
  Proof.
    intros I. unfold delete_account, bind, get_store. cbn [db].
    destruct (first_account (db w) account_id) as [a|] eqn:F; [|exact I].
    apply first_account_some in F as [_ Eid].
    destruct (0 <? _)%nat eqn:C; [exact I|].
    unfold put_store, ret. cbn [snd db].
    intros dm Hd. cbn [demands] in Hd. destruct (I dm Hd) as (b & Hb & E).
    exists b. cbn [accounts]. split; [|exact E].
    apply filter_In. split; [assumption|].
    apply negb_true_iff, String.eqb_neq. intros N.
    assert ((0 <? List.length (demands_of (db w) account_id))%nat = true)
      as C'; [|congruence].
    apply demands_of_count. exists dm. split; [assumption|]. congruence.
  Qed.

Lemma insert_demands_integrity pending w :
    referential_integrity (db w) ->
    Forall (fun mk => forall sno,
                known_account (db w) (DemandModel.account_id (mk sno)))
           pending ->
    referential_integrity (db (snd (insert_demands pending w))).
  Proof.
    intros I K. unfold insert_demands, bind, get_store. cbn [db].
    destruct (flush_inserts _ pending) as [rows|] eqn:F; [|exact I].
    unfold put_store, ret. cbn [snd db].
    apply flush_inserts_rows in F.
    intros dm Hd. cbn [demands] in Hd. cbn [accounts].
    apply in_app_or in Hd as [Hd|Hd]; [exact (I dm Hd)|].
    clear I. induction F as [|mk row ps rs [sno ->] _ IH]; [destruct Hd|].
    inversion K as [|? ? K1 K2]; subst.
    destruct Hd as [<-|Hd]; [exact (K1 sno)|exact (IH K2 Hd)].
  Qed.

Lemma create_demand_integrity demand_data user_id w :
    referential_integrity (db w) ->
    referential_integrity
      (db (snd (create_demand strptime clock demand_data user_id w))).
  Proof.
    intros I. unfold create_demand. unfold bind at 1, get_store at 1.
    destruct (first_account (db w) _) as [a|] eqn:F; [|exact I].
    apply first_account_some in F as [Ha Eid].
    unfold bind at 1, now at 1. unfold bind at 1, now at 1. cbn [db ticks].
    unfold bind at 1. pure_step.
    unfold bind at 1. pure_step.
    unfold insert_demand, bind, get_store, put_store.
    cbn [db ticks demands accounts]. repeat pure_step.
    unfold raise, ret.
    destruct (existsb _ _); cbn [snd db]; [exact I|].
    intros dm Hd. cbn [demands accounts] in *.
    apply in_app_or in Hd as [Hd|[<-|[]]]; [exact (I dm Hd)|].
    exists a. cbn. split; [assumption|]. now rewrite Eid.
  Qed.

Lemma update_demand_integrity demand_id demand_data user_id w :
    referential_integrity (db w) ->
    referential_integrity
      (db (snd (update_demand strptime clock demand_id demand_data
                              user_id w))).
  Proof.
    intros I. unfold update_demand. unfold bind at 1, get_store at 1.
    destruct (first_demand (db w) demand_id) as [dm|] eqn:F; [|exact I].
    apply first_demand_some in F as [Hdm _].
    unfold bind at 1.
    destruct (check_account_id_cases (db w)
                (DemandUpdate.account_id demand_data) w) as [[-> R]| ->];
      [|exact I].
    unfold bind.
    repeat pure_step.
    unfold now. cbn [db ticks].
    repeat pure_step.
    unfold put_store, ret. cbn [snd db ticks].
    intros e He. cbn [demands accounts] in *.
    unfold replace_demand in He. apply in_map_iff in He as (e0 & Ee & He0).
    destruct (DemandModel.sno e0 =? _)%Z; [|subst e0; exact (I e He0)].
    subst e. cbn [DemandModel.account_id].
    destruct (DemandUpdate.account_id demand_data) as [|v];
      cbn [setattr]; [exact (I dm Hdm)|].
    cbn in R. destruct v as [k|]; cbn in R; [|congruence].
    destruct (first_account (db w) k) as [a|] eqn:Fa; [|congruence].
    apply first_account_some in Fa as [Ha Eid].
    exists a. split; [assumption|]. now rewrite Eid.
  Qed.

Lemma delete_demand_integrity demand_id w :
    referential_integrity (db w) ->
    referential_integrity (db (snd (delete_demand demand_id w))).
  Proof.
    intros I. unfold delete_demand, bind, get_store. cbn [db].
    destruct (first_demand (db w) demand_id) as [dm|]; [|exact I].
    unfold put_store, ret. cbn [snd db].
    intros e He. cbn [demands accounts] in *.
    apply filter_In in He as [He _]. exact (I e He).
  Qed.

Lemma clone_demand_integrity demand_id count user_id w :
    referential_integrity (db w) ->
    referential_integrity
      (db (snd (clone_demand clock demand_id count user_id w))).
  Proof.
    intros I. unfold clone_demand. unfold bind at 1, get_store at 1.
    destruct (first_demand (db w) demand_id) as [dm|] eqn:F; [|exact I].
    apply first_demand_some in F as [Hdm _].
    unfold bind at 1, now at 1. unfold bind at 1.
    rewrite clone_loop_run. cbn [db ticks].
    apply insert_demands_integrity; [exact I|].
    apply Forall_forall. intros mk Hmk sno.
    apply in_map_iff in Hmk as (k & <- & _). cbn. exact (I dm Hdm).
  Qed.

  (** C1. In every store reachable from the empty one by account
      create/update/delete and demand create/update/delete/clone, each
      demand's [account_id] is the id of a stored account; each operation,
      whether it returns or raises, keeps it so. *)
Theorem reachable_referential_integrity (w : World) :
    reachable strptime clock w ->
    referential_integrity (db w) /\
    (forall o, referential_integrity (db (run strptime clock o w))).
  Proof.
    intros R.
    assert (referential_integrity (db w)) as I.
    { induction R as [|o w R IH].
      - intros d [].
      - destruct o; cbn [run];
          auto using create_account_integrity, update_account_integrity,
            delete_account_integrity, create_demand_integrity,
            update_demand_integrity, delete_demand_integrity,
            clone_demand_integrity. }
    split; [exact I|].
    intros o. destruct o; cbn [run];
      auto using create_account_integrity, update_account_integrity,
        delete_account_integrity, create_demand_integrity,
        update_demand_integrity, delete_demand_integrity,
        clone_demand_integrity.
  Qed.

End Integrity.

(** ** Search *)

Lemma any_suffix_ext {X : Type} (f g : list X -> bool) :
  (forall s, f s = g s) -> forall s, any_suffix f s = any_suffix g s.
Proof.
  intros E s. induction s as [|c s IH]; cbn; rewrite E; [reflexivity|].
  now rewrite IH.
Qed.

Lemma any_suffix_spec {X : Type} (f : list X -> bool) (s : list X) :
  any_suffix f s = true <->
  exists pre post, s = pre ++ post /\ f post = true.
Proof.
  induction s as [|c s IH]; cbn.
  - rewrite orb_false_r. split.
    + intros H. exists [], []. auto.
    + intros (pre & post & E & H).
      symmetry in E. apply app_eq_nil in E as [_ ->]. exact H.
  - rewrite orb_true_iff, IH. split.
    + intros [H|(pre & post & -> & H)].
      * exists [], (c :: s). auto.
      * exists (c :: pre), post. auto.
    + intros (pre & post & E & H). destruct pre as [|c' pre]; cbn in E.
      * left. now subst post.
      * right. injection E as -> ->. eauto.
Qed.

Lemma prefix_with_spec (f : string -> string) (q s : list string) :
  prefix_with (fun c d => f c =? f d) q s = true <->
  exists mid post, s = mid ++ post /\ map f mid = map f q.
Proof.
  revert s. induction q as [|c q IH]; intros s; cbn.
  - split; [|reflexivity]. intros _. exists [], s. auto.
  - destruct s as [|d s].
    + split; [discriminate|]. intros (mid & post & E & H).
      symmetry in E. apply app_eq_nil in E as [-> _]. discriminate.
    + rewrite andb_true_iff, String.eqb_eq, IH. split.
      * intros (E & mid & post & -> & H).
        exists (d :: mid), post. cbn. split; [reflexivity|]. congruence.
      * intros (mid & post & E & H). destruct mid as [|d' mid]; cbn in H;
          [discriminate|].
        cbn in E. injection E as -> ->. injection H as H1 H2.
        split; [congruence|]. eauto.
Qed.

(** What [substring_cs] decides: the characters of [query] are a run of
    the characters of [v]. *)
Lemma substring_cs_spec (query v : string) :
  substring_cs query v = true <->
  exists pre post, utf8_chars v = pre ++ utf8_chars query ++ post.
Proof.
  unfold substring_cs. rewrite any_suffix_spec. split.
  - intros (pre & post & E & H).
    apply (prefix_with_spec (fun c => c)) in H as (mid & post' & -> & H).
    rewrite !map_id in H. subst mid. eauto.
  - intros (pre & post & E).
    exists pre, (utf8_chars query ++ post). split; [exact E|].
    apply (prefix_with_spec (fun c => c)). eauto.
Qed.

(** What [substring_ci] decides: a run of the characters of [v] is
    [query] up to the case of ASCII letters. *)
Lemma substring_ci_spec (query v : string) :
  substring_ci query v = true <->
  exists pre mid post,
    utf8_chars v = pre ++ mid ++ post /\
    map lower_string mid = map lower_string (utf8_chars query).
Proof.
  unfold substring_ci. rewrite any_suffix_spec. split.
  - intros (pre & post & E & H).
    apply (prefix_with_spec lower_string) in H as (mid & post' & -> & H).
    eauto.
  - intros (pre & mid & post & E & H).
    exists pre, (mid ++ post). split; [exact E|].
    apply (prefix_with_spec lower_string). eauto.
Qed.

Lemma like_percent (s : list string) : like ["%"] s = true.
Proof.
  cbn. induction s as [|c s IH]; cbn; [reflexivity|exact IH].
Qed.


(** *** Bytes and characters *)

Lemma string_length_app (x y : string) :
  String.length (x ++ y)%string = String.length x + String.length y.
Proof. induction x as [|c x IH]; cbn; [reflexivity|now rewrite IH]. Qed.

Lemma like_pattern_length (query : string) :
  String.length (like_pattern query) = String.length query + 2.
Proof.
  unfold like_pattern. cbn. rewrite string_length_app. cbn. lia.
Qed.

Lemma like_refuses_within {R : Type} (query : string) (table : list R) :
  within_like_limit query -> like_refuses query table = false.
Proof.
  unfold within_like_limit, like_refuses. intros L.
  rewrite like_pattern_length.
  replace (50000 <? Z.of_nat (String.length query + 2))%Z with false;
    [reflexivity|].
  symmetry. apply Z.ltb_ge. lia.
Qed.

Lemma c_str_nul_free (s : string) : nul_free s = true -> c_str s = s.
Proof.
  unfold nul_free. induction s as [|b s IH]; cbn; [reflexivity|].
  destruct (Ascii.eqb b nul); cbn; [discriminate|].
  intros H. now rewrite IH.
Qed.

Lemma nul_free_pattern (query : string) :
  nul_free query = true -> nul_free (like_pattern query) = true.
Proof.
  unfold nul_free, like_pattern. cbn.
  induction query as [|b q IH]; cbn; [reflexivity|].
  destruct (Ascii.eqb b nul); cbn; [discriminate|exact IH].
Qed.

Lemma trail_snoc (cs : list string) (b : ascii) :
  is_continuation b = false ->
  trail (cs ++ [String b EmptyString]) = trail cs /\
  after_trail (cs ++ [String b EmptyString])
  = after_trail cs ++ [String b EmptyString].
Proof.
  intros N. induction cs as [|c cs [IH1 IH2]]; cbn.
  - now rewrite N.
  - destruct c as [|d [|d' c]]; auto.
    destruct (is_continuation d); [|auto]. now rewrite IH1, IH2.
Qed.

(** A byte that is not a continuation byte starts a character of its
    own at the end of a text. *)
Lemma utf8_chars_snoc (s : string) (b : ascii) :
  is_continuation b = false ->
  utf8_chars (s ++ String b EmptyString)
  = utf8_chars s ++ [String b EmptyString].
Proof.
  intros N. induction s as [|c s IH]; cbn [append utf8_chars].
  - cbn [trail after_trail app]. now destruct (is_lead b).
  - rewrite IH. destruct (trail_snoc (utf8_chars s) b N) as [-> ->].
    now destruct (is_lead c).
Qed.



(** The characters of [%query%] when the query has no NUL. *)
Lemma pattern_chars (query : string) :
  nul_free query = true ->
  utf8_chars (c_str (like_pattern query)) = "%" :: utf8_chars query ++ ["%"].
Proof.
  intros N. rewrite (c_str_nul_free _ (nul_free_pattern _ N)).
  unfold like_pattern. cbn [append utf8_chars].
  replace (is_lead "%") with false by reflexivity.
  now rewrite utf8_chars_snoc.
Qed.



(** ** Generated ids *)






Lemma find_app_some {A} (p : A -> bool) (l l' : list A) (a : A) :
  find p l = Some a -> find p (l ++ l') = Some a.
Proof.
  induction l as [|b l IH]; cbn; [discriminate|].
  destruct (p b); auto.
Qed.





(** ** Account creation *)

Lemma parse_optional_accepted (strptime : string -> option date)
    (v : option string) :
  created_date_accepted strptime v ->
  exists d, forall w, parse_optional strptime v w = (Ok d, w).
Proof.
  destruct v as [s|]; cbn; [|intros _; exists None; reflexivity].
  destruct (truthy s); [|intros _; exists None; reflexivity].
  intros [T|P]; [discriminate|].
  destruct (strptime s) as [d|] eqn:E; [|congruence].
  exists (Some d). intros w. unfold bind, parse. now rewrite E.
Qed.

(** X1. Creating an account while no stored account has the id of the current
    second: the row is appended and returned; its id is that non-empty
    [ACC-] id, found on no account stored before; the audit stamp is the
    caller and the date read from the clock. *)
Lemma create_account_fresh
    (strptime : string -> option date) (clock : nat -> datetime)
    (w : World) (account_data : AccountCreate.t) (user_id : string) :
  created_date_accepted strptime
    (AccountCreate.revised_start_date account_data) ->
  created_date_accepted strptime
    (AccountCreate.planned_start_date account_data) ->
  created_date_accepted strptime
    (AccountCreate.planned_end_date account_data) ->
  (forall a, In a (accounts (db w)) ->
             AccountModel.id a <> ("ACC-" ++ strftime (clock (ticks w)))%string)
  ->
  exists account w',
    create_account strptime clock account_data user_id w = (Ok account, w') /\
    accounts (db w') = accounts (db w) ++ [account] /\
    demands (db w') = demands (db w) /\
    AccountModel.id account = ("ACC-" ++ strftime (clock (ticks w)))%string /\
    AccountModel.id account <> EmptyString /\
    (forall a, In a (accounts (db w)) ->
               AccountModel.id a <> AccountModel.id account) /\
    AccountModel.added_on account = date_of (clock (S (ticks w))) /\
    AccountModel.updated_on account = date_of (clock (S (ticks w))) /\
    AccountModel.added_by account = user_id /\
    AccountModel.last_updated_by account = user_id.
Proof.
  intros A1 A2 A3 Hfresh.
  destruct (parse_optional_accepted strptime _ A1) as (d1 & P1).
  destruct (parse_optional_accepted strptime _ A2) as (d2 & P2).
  destruct (parse_optional_accepted strptime _ A3) as (d3 & P3).
  eexists. eexists. split.
  { unfold create_account, bind, now. cbn [db ticks].
    rewrite P1, P2, P3.
    unfold insert_account, bind, get_store, put_store, ret. cbn [db ticks].
    match goal with
    | |- context [existsb ?p ?l] =>
        assert (existsb p l = false) as ->; [|reflexivity]
    end.
    destruct (existsb _ _) eqn:X; [|reflexivity].
    apply existsb_exists in X as (a & Ha & E). apply String.eqb_eq in E.
    exfalso. exact (Hfresh a Ha E). }
  cbn [db accounts demands AccountModel.id AccountModel.added_on
       AccountModel.updated_on AccountModel.added_by
       AccountModel.last_updated_by].
  repeat split; try reflexivity; [discriminate|exact Hfresh].
Qed.

(** Runs both sides of a closed equation. *)
Ltac evaluate := lazy; reflexivity.

(** ** Ids within one second *)

(** C4. Two account creations in the same second are given the same id
    [ACC-20240115093000].  The first returns its row; the second, though
    its input is valid, is refused by the primary key and returns nothing.
    Once the first account is deleted, a creation in that second returns a
    row whose id is that of the account created before. *)
Theorem create_account_same_second :
  exists first w1,
    create_account sample_strptime same_second acme "ana" initial
    = (Ok first, w1) /\
    AccountModel.id first = "ACC-20240115093000" /\
    create_account sample_strptime same_second globex "ben" w1
    = (Raise IntegrityError, mk_world (db w1) 4) /\
    exists w2 third w3,
      delete_account "ACC-20240115093000" w1 = (Ok true, w2) /\
      create_account sample_strptime same_second globex "ben" w2
      = (Ok third, w3) /\
      AccountModel.id third = AccountModel.id first.
Proof.
  eexists. eexists. split; [evaluate|].
  split; [evaluate|]. split; [evaluate|].
  eexists. eexists. eexists.
  split; [evaluate|]. split; evaluate.
Qed.

(** C3. Two clone calls in the same second generate the same ids
    [DEM-CLONE-20240115093000-<index>].  The first call stores its two
    clones; the second, on the same stored source and with a count in
    1..10, is refused by the unique index on [demands.id]: it raises and
    produces no record. *)
Theorem clone_demand_same_second :
  exists source rows w3,
    first_demand (db world_demand) "DEM-20240115093000" = Some source /\
    clone_demand same_second "DEM-20240115093000" 2 "ben" world_demand
    = (Ok rows, w3) /\
    map DemandModel.id rows
    = ["DEM-CLONE-20240115093000-0"; "DEM-CLONE-20240115093000-1"] /\
    first_demand (db w3) "DEM-20240115093000" = Some source /\
    clone_demand same_second "DEM-20240115093000" 1 "ben" w3
    = (Raise IntegrityError, mk_world (db w3) (ticks w3 + 2)) /\
    List.length (demands (db w3)) = 3.
Proof.
  eexists. eexists. eexists.
  split; [evaluate|]. split; [evaluate|].
  split; [evaluate|]. split; [evaluate|]. split; evaluate.
Qed.

(** Away from a collision the same calls do what is expected of them. *)
Lemma create_account_fresh_witness :
  exists account w',
    create_account sample_strptime same_second acme "ana" initial
    = (Ok account, w') /\
    accounts (db w') = [account] /\
    AccountModel.id account = "ACC-20240115093000" /\
    AccountModel.added_on account = mk_date 2024 1 15 /\
    AccountModel.added_by account = "ana".
Proof.
  edestruct (@create_account_fresh sample_strptime same_second initial acme
               "ana") as (account & w' & C & A & _ & E & _ & _ & On & _ & By & _).
  - exact I.
  - right. lazy. discriminate.
  - left. reflexivity.
  - intros a [].
  - exists account, w'. auto.
Defined.


(** ** Search is not a case-sensitive substring test *)


(** ** The theorems at work on the run *)

Lemma reachable_referential_integrity_witness :
  reachable sample_strptime same_second world_clones /\
  referential_integrity (db world_clones) /\
  (forall o, referential_integrity
               (db (run sample_strptime same_second o world_clones))).
Proof.
  assert (reachable sample_strptime same_second world_clones) as R.
  { unfold world_clones, world_demand, world_account.
    do 3 apply reach_run. apply reach_initial. }
  split; [exact R|].
  exact (reachable_referential_integrity R).
Defined.

Lemma delete_account_outcomes_witness :
  delete_account "ACC-19990101000000" world_demand = (Ok false, world_demand)
  /\
  delete_account "ACC-20240115093000" world_demand = (Ok false, world_demand)
  /\
  exists w',
    delete_account "ACC-20240115093000" world_account = (Ok true, w') /\
    get_account_by_id "ACC-20240115093000" w' = (Ok None, w') /\
    demands (db w') = demands (db world_account).
Proof.
  split; [|split].
  - apply (proj1 (delete_account_outcomes world_demand "ACC-19990101000000")).
    reflexivity.
  - apply (proj1 (proj2 (delete_account_outcomes world_demand
                                                 "ACC-20240115093000"))).
    eexists. split; [left; reflexivity|reflexivity].
  - edestruct (proj2 (proj2 (delete_account_outcomes world_account
                                                     "ACC-20240115093000")))
      as (w' & D & G & _ & _ & Dm).
    + reflexivity.
    + intros d [].
    + exists w'. auto.
Defined.

Lemma create_demand_unknown_account_witness :
  exists w',
    create_demand sample_strptime same_second orphan "ana" world_demand
    = (Raise (HTTPException 404 "Referenced account not found"), w') /\
    demands (db w') = demands (db world_demand) /\
    db w' = db world_demand.
Proof.
  apply create_demand_unknown_account.
  intros a [<-|[]]. discriminate.
Defined.

Lemma update_demand_unknown_account_witness :
  exists demand w',
    first_demand (db world_demand) "DEM-20240115093000" = Some demand /\
    update_demand sample_strptime same_second "DEM-20240115093000"
                  move_to_unknown "ben" world_demand
    = (Raise (HTTPException 404 "Referenced account not found"), w') /\
    get_demand_by_id "DEM-20240115093000" w' = (Ok (Some demand), w') /\
    db w' = db world_demand.
Proof.
  eexists.
  edestruct (@update_demand_unknown_account sample_strptime same_second
               world_demand "DEM-20240115093000")
    with (demand_data := move_to_unknown) (user_id := "ben")
    as (w' & U & G & S).
  - reflexivity.
  - reflexivity.
  - intros a [<-|[]]. discriminate.
  - exists w'. split; [reflexivity|]. auto.
Defined.

Lemma clone_demand_zero_witness :
  exists w',
    clone_demand same_second "DEM-20240115093000" 0 "ben" world_demand
    = (Ok [], w') /\
    db w' = db world_demand.
Proof.
  eapply clone_demand_zero. reflexivity.
Defined.


Lemma update_null_date_clears_witness :
  (exists account account' w',
      first_account (db world_demand) "ACC-20240115093000" = Some account /\
      AccountModel.planned_start_date account = Some (mk_date 2024 2 1) /\
      update_account sample_strptime same_second "ACC-20240115093000"
                     clear_planned_start "ben" world_demand
      = (Ok (Some account'), w') /\
      AccountModel.planned_start_date account' = None)
  /\
  (exists demand demand' w',
      first_demand (db world_demand) "DEM-20240115093000" = Some demand /\
      DemandModel.original_start_date demand = Some (mk_date 2024 2 1) /\
      update_demand sample_strptime same_second "DEM-20240115093000"
                    clear_original_start "ben" world_demand
      = (Ok (Some demand'), w') /\
      DemandModel.original_start_date demand' = None).
Proof.
  destruct (update_null_date_clears sample_strptime same_second
                                    world_demand "ben") as [A D].
  split.
  - eexists.
    edestruct (A "ACC-20240115093000") with (account_data := clear_planned_start)
      as (account' & w' & U & _ & _ & C & _).
    + reflexivity.
    + repeat split.
    + exists account', w'. split; [reflexivity|]. split; [reflexivity|].
      split; [exact U|]. apply C. reflexivity.
  - eexists.
    edestruct (D "DEM-20240115093000") with (demand_data := clear_original_start)
      as (demand' & w' & U & _ & C & _).
    + reflexivity.
    + exact I.
    + repeat split.
    + repeat split.
    + exists demand', w'. split; [reflexivity|]. split; [reflexivity|].
      split; [exact U|]. apply C. reflexivity.
Defined.


(* ================================================================== *)
(** * Further properties of the services *)

(** ** Ids that are not stored *)

Lemma first_demand_none (s : Store) (key : string) :
  first_demand s key = None <->
  (forall d, In d (demands s) -> DemandModel.id d <> key).
Proof.
  unfold first_demand. split.
  - intros H d Hd E.
    pose proof (find_none _ _ H d Hd) as F. cbn in F.
    apply String.eqb_neq in F. contradiction.
  - intros H. destruct (find _ _) as [d|] eqn:F; [|reflexivity].
    apply find_some in F as [Hd E]. apply String.eqb_eq in E.
    exfalso. exact (H d Hd E).
Qed.

(** X5. Writes addressed to an id no row carries.  Updating an unknown
    account or demand returns [None] and deleting an unknown demand
    returns [False], without an exception; cloning an unknown demand
    raises the 404 "Demand not found".  None of them reads the clock,
    parses a date of the request, looks at its [account_id] or touches the
    store: the world is exactly as before. *)
Theorem unknown_id_outcomes
    (strptime : string -> option date) (clock : nat -> datetime)
    (w : World) (key : string) :
  ((forall a, In a (accounts (db w)) -> AccountModel.id a <> key) ->
   forall account_data user_id,
     update_account strptime clock key account_data user_id w
     = (Ok None, w))
  /\
  ((forall d, In d (demands (db w)) -> DemandModel.id d <> key) ->
   (forall demand_data user_id,
       update_demand strptime clock key demand_data user_id w
       = (Ok None, w)) /\
   delete_demand key w = (Ok false, w) /\
   (forall count user_id,
       clone_demand clock key count user_id w
       = (Raise (HTTPException 404 "Demand not found"), w))).
Proof.
  split.
  - intros H account_data user_id. apply first_account_none in H.
    unfold update_account, bind, get_store. cbn [db]. now rewrite H.
  - intros H. apply first_demand_none in H. repeat split; intros.
    + unfold update_demand, bind, get_store. cbn [db]. now rewrite H.
    + unfold delete_demand, bind, get_store. cbn [db]. now rewrite H.
    + unfold clone_demand, bind, get_store. cbn [db]. now rewrite H.
Qed.

Lemma unknown_id_outcomes_witness :
  update_account sample_strptime same_second "ACC-19990101000000"
                 comment_only "ben" world_demand = (Ok None, world_demand)
  /\
  update_demand sample_strptime same_second "DEM-19990101000000"
                move_to_unknown "ben" world_demand = (Ok None, world_demand)
  /\
  delete_demand "DEM-19990101000000" world_demand = (Ok false, world_demand)
  /\
  clone_demand same_second "DEM-19990101000000" 3 "ben" world_demand
  = (Raise (HTTPException 404 "Demand not found"), world_demand).
Proof.
  destruct (unknown_id_outcomes sample_strptime same_second world_demand
                                "ACC-19990101000000") as [A _].
  destruct (unknown_id_outcomes sample_strptime same_second world_demand
                                "DEM-19990101000000") as [_ D].
  split.
  - apply A. intros a [<-|[]]. discriminate.
  - destruct D as (U & Del & C).
    + intros d [<-|[]]. discriminate.
    + split; [apply U|]. split; [exact Del|apply C].
Defined.

(** ** Creating accounts *)

Lemma parse_optional_cases (strptime : string -> option date)
    (v : option string) :
  (created_date_accepted strptime v /\
   exists d, forall w, parse_optional strptime v w = (Ok d, w)) \/
  (created_date_refused strptime v /\
   forall w, parse_optional strptime v w = (Raise ValueError, w)).
Proof.
  destruct v as [s|]; cbn;
    [|left; split; [exact I|exists None; reflexivity]].
  destruct (truthy s) eqn:T;
    [|left; split; [now left|exists None; reflexivity]].
  destruct (strptime s) as [d|] eqn:E.
  - left. split; [right; discriminate|].
    exists (Some d). intros w. unfold bind, parse. now rewrite E.
  - right. split; [exists s; auto|].
    intros w. unfold bind, parse. now rewrite E.
Qed.

(** X2. A creation that cannot go through.  A date string [strptime]
    refuses makes [create_account] raise ValueError; with digestible dates,
    an account already stored under the id of the current second makes it
    raise IntegrityError.  Either way nothing is stored. *)
Theorem create_account_refused
    (strptime : string -> option date) (clock : nat -> datetime)
    (w : World) (account_data : AccountCreate.t) (user_id : string) :
  ((created_date_refused strptime
      (AccountCreate.revised_start_date account_data) \/
    created_date_refused strptime
      (AccountCreate.planned_start_date account_data) \/
    created_date_refused strptime
      (AccountCreate.planned_end_date account_data)) ->
   exists w',
     create_account strptime clock account_data user_id w
     = (Raise ValueError, w') /\ db w' = db w)
  /\
  (created_date_accepted strptime
     (AccountCreate.revised_start_date account_data) ->
   created_date_accepted strptime
     (AccountCreate.planned_start_date account_data) ->
   created_date_accepted strptime
     (AccountCreate.planned_end_date account_data) ->
   (exists a, In a (accounts (db w)) /\
              AccountModel.id a
              = ("ACC-" ++ strftime (clock (ticks w)))%string) ->
   exists w',
     create_account strptime clock account_data user_id w
     = (Raise IntegrityError, w') /\ db w' = db w).
Proof.
  split.
  - intros R.
    assert (forall v, created_date_refused strptime v ->
                      ~ created_date_accepted strptime v) as Excl.
    { intros v (s & -> & T & E) [T'|P]; cbn in *; congruence. }
    unfold create_account, bind, now. cbn [db ticks].
    destruct (parse_optional_cases strptime
                (AccountCreate.revised_start_date account_data))
      as [[A1 [d1 P1]]|[_ P1]]; rewrite P1;
      [|eexists; split; reflexivity].
    destruct (parse_optional_cases strptime
                (AccountCreate.planned_start_date account_data))
      as [[A2 [d2 P2]]|[_ P2]]; rewrite P2;
      [|eexists; split; reflexivity].
    destruct (parse_optional_cases strptime
                (AccountCreate.planned_end_date account_data))
      as [[A3 [d3 P3]]|[_ P3]]; rewrite P3;
      [|eexists; split; reflexivity].
    exfalso. destruct R as [R|[R|R]]; eapply Excl; eassumption.
  - intros A1 A2 A3 (a & Ha & E).
    destruct (parse_optional_accepted strptime _ A1) as (d1 & P1).
    destruct (parse_optional_accepted strptime _ A2) as (d2 & P2).
    destruct (parse_optional_accepted strptime _ A3) as (d3 & P3).
    unfold create_account, bind, now. cbn [db ticks].
    rewrite P1, P2, P3.
    unfold insert_account, bind, get_store, raise. cbn [db ticks].
    match goal with
    | |- context [existsb ?p ?l] =>
        assert (existsb p l = true) as ->
    end.
    { apply existsb_exists. exists a. split; [assumption|].
      now apply String.eqb_eq. }
    eexists. split; reflexivity.
Qed.

Lemma create_account_refused_witness :
  (exists w',
      create_account sample_strptime same_second
        (AccountCreate.mk "Acme" "Apollo" "Retail" "EMEA" "2024-02"
           None (Some "01/02/2024") None FIFTY
           "Open" "Signed" "Active" "Priya" "Omar" "Lena" None)
        "ana" world_account
      = (Raise ValueError, w') /\ db w' = db world_account)
  /\
  (exists w',
      create_account sample_strptime same_second globex "ben" world_account
      = (Raise IntegrityError, w') /\ db w' = db world_account).
Proof.
  split.
  - apply create_account_refused. right. left.
    eexists. split; [reflexivity|]. split; reflexivity.
  - apply create_account_refused; try exact I.
    eexists. split; [left; reflexivity|reflexivity].
Defined.

(** What a returned account tells: it was appended under an id no stored
    account had. *)
Lemma create_account_ok_inv
    (strptime : string -> option date) (clock : nat -> datetime)
    (w w' : World) (account_data : AccountCreate.t) (user_id : string)
    (account : AccountModel.t) :
  create_account strptime clock account_data user_id w = (Ok account, w') ->
  db w' = mk_store (accounts (db w) ++ [account]) (demands (db w)) /\
  (forall a, In a (accounts (db w)) ->
             AccountModel.id a <> AccountModel.id account) /\
  (exists p, AccountModel.probability account = Some (value p)).
Proof.
  unfold create_account, bind, now. cbn [db ticks].
  destruct (parse_optional_cases strptime
              (AccountCreate.revised_start_date account_data))
    as [[_ [d1 P1]]|[_ P1]]; rewrite P1; [|discriminate].
  destruct (parse_optional_cases strptime
              (AccountCreate.planned_start_date account_data))
    as [[_ [d2 P2]]|[_ P2]]; rewrite P2; [|discriminate].
  destruct (parse_optional_cases strptime
              (AccountCreate.planned_end_date account_data))
    as [[_ [d3 P3]]|[_ P3]]; rewrite P3; [|discriminate].
  unfold insert_account, bind, get_store, put_store, raise, ret.
  cbn [db ticks].
  destruct (existsb _ _) eqn:X; [discriminate|].
  intros [= <- <-]. cbn [db]. split; [reflexivity|]. split.
  - intros a Ha E. apply not_true_iff_false in X. apply X.
    apply existsb_exists. exists a. split; [assumption|].
    now apply String.eqb_eq.
  - cbn. eauto.
Qed.

Lemma find_app_none {A} (p : A -> bool) (l l' : list A) :
  find p l = None -> find p (l ++ l') = find p l'.
Proof.
  induction l as [|b l IH]; cbn; [reflexivity|].
  destruct (p b); [discriminate|exact IH].
Qed.

(** X3. Insert then look up.  When [create_account] returns a row, fetching
    its id gives that row back, every account stored before is fetched as
    before, the listing is the old listing followed by the new row, and no
    demand has changed. *)
Theorem create_account_then_get
    (strptime : string -> option date) (clock : nat -> datetime)
    (w w' : World) (account_data : AccountCreate.t) (user_id : string)
    (account : AccountModel.t) :
  create_account strptime clock account_data user_id w = (Ok account, w') ->
  get_account_by_id (AccountModel.id account) w' = (Ok (Some account), w') /\
  (forall a, In a (accounts (db w)) ->
             first_account (db w') (AccountModel.id a)
             = first_account (db w) (AccountModel.id a)) /\
  get_all_accounts w' = (Ok (accounts (db w) ++ [account]), w') /\
  demands (db w') = demands (db w).
Proof.
  intros C. apply create_account_ok_inv in C as (D & Fresh & _).
  unfold get_account_by_id, get_all_accounts, bind, get_store, ret.
  rewrite D. cbn [accounts demands]. unfold first_account. cbn [accounts].
  repeat split.
  - rewrite find_app_none; [cbn; now rewrite String.eqb_refl|].
    apply (first_account_none (db w)). exact Fresh.
  - intros a Ha.
    destruct (find _ (accounts (db w))) as [b|] eqn:F.
    + now apply find_app_some.
    + exfalso.
      exact (proj1 (first_account_none (db w) (AccountModel.id a)) F a Ha
                   eq_refl).
Qed.

Lemma create_account_then_get_witness :
  exists account w',
    create_account sample_strptime same_second acme "ana" initial
    = (Ok account, w') /\
    get_account_by_id (AccountModel.id account) w' = (Ok (Some account), w') /\
    get_all_accounts w' = (Ok [account], w').
Proof.
  eexists. eexists.
  assert (create_account sample_strptime same_second acme "ana" initial
          = (Ok _, _)) as C by (lazy; reflexivity).
  split; [exact C|].
  destruct (create_account_then_get _ _ _ _ _ C) as (G & _ & L & _).
  split; [exact G|exact L].
Defined.

(** ** Creating demands *)

Lemma parse_optional_value (strptime : string -> option date)
    (v : option string) :
  created_date_accepted strptime v ->
  forall w,
    parse_optional strptime v w
    = (Ok (match v with
           | Some s => if truthy s then strptime s else None
           | None => None
           end), w).
Proof.
  destruct v as [s|]; cbn; [|reflexivity].
  destruct (truthy s); [|reflexivity].
  intros [T|P]; [discriminate|].
  destruct (strptime s) as [d|] eqn:E; [|congruence].
  intros w. unfold bind, parse. now rewrite E.
Qed.

Lemma next_sno_above (table : list DemandModel.t) (d : DemandModel.t) :
  In d table -> (DemandModel.sno d < next_sno table)%Z.
Proof.
  unfold next_sno. induction table as [|e table IH]; cbn; [intros []|].
  intros [->|H]; [lia|]. specialize (IH H). lia.
Qed.

(** X4. A creation that goes through.  With a stored account under the
    request's [account_id], digestible dates, an [allocation_percentage]
    and a [probability] within 64 bits and no demand yet under the id of
    the current second, [create_demand] returns the new row: the
    request's fields, the [DEM-] id, the caller and the clock date as audit
    stamp, and an [sno] above every stored one.  The row is appended;
    fetching its id gives it back; it closes the listing of its account;
    the accounts are untouched. *)
Theorem create_demand_fresh
    (strptime : string -> option date) (clock : nat -> datetime)
    (w : World) (demand_data : DemandCreate.t) (user_id : string) :
  (exists a, In a (accounts (db w)) /\
             AccountModel.id a = DemandCreate.account_id demand_data) ->
  created_date_accepted strptime
    (DemandCreate.original_start_date demand_data) ->
  created_date_accepted strptime
    (DemandCreate.allocation_end_date demand_data) ->
  int64 (DemandCreate.allocation_percentage demand_data) = true ->
  int64 (DemandCreate.probability demand_data) = true ->
  (forall d, In d (demands (db w)) ->
             DemandModel.id d <> ("DEM-" ++ strftime (clock (ticks w)))%string)
  ->
  exists row w',
    create_demand strptime clock demand_data user_id w = (Ok row, w') /\
    row = created_demand strptime demand_data user_id
            ("DEM-" ++ strftime (clock (ticks w)))%string
            (date_of (clock (S (ticks w))))
            (next_sno (demands (db w))) /\
    (forall d, In d (demands (db w)) ->
               (DemandModel.sno d < DemandModel.sno row)%Z) /\
    demands (db w') = demands (db w) ++ [row] /\
    accounts (db w') = accounts (db w) /\
    get_demand_by_id (DemandModel.id row) w' = (Ok (Some row), w') /\
    get_demands_by_account (DemandCreate.account_id demand_data) w'
    = (Ok (demands_of (db w) (DemandCreate.account_id demand_data) ++ [row]),
       w').
Proof.
  intros (a & Ha & Ea) A1 A2 I1 I2 Hfresh.
  assert (first_account (db w) (DemandCreate.account_id demand_data) <> None)
    as Fa.
  { intros N. exact (proj1 (first_account_none _ _) N a Ha Ea). }
  destruct (first_account (db w) _) as [a0|] eqn:F; [clear Fa|congruence].
  eexists. eexists. split.
  { unfold create_demand, bind, get_store, now. cbn [db ticks]. rewrite F.
    rewrite (parse_optional_value strptime _ A1),
            (parse_optional_value strptime _ A2).
    unfold insert_demand, bind_int, bind, get_store, put_store, ret.
    cbn [db ticks DemandModel.allocation_percentage DemandModel.probability].
    rewrite I1, I2.
    match goal with
    | |- context [existsb ?p ?l] =>
        assert (existsb p l = false) as ->; [|reflexivity]
    end.
    apply not_true_iff_false. intros X.
    apply existsb_exists in X as (d & Hd & E). apply String.eqb_eq in E.
    exact (Hfresh d Hd E). }
  cbn [db demands accounts]. split; [reflexivity|].
  split; [intros d Hd; cbn; now apply next_sno_above|].
  split; [reflexivity|]. split; [reflexivity|].
  unfold get_demand_by_id, get_demands_by_account, bind, get_store, ret.
  cbn [db]. unfold first_demand, demands_of. cbn [demands]. split.
  - rewrite find_app_none.
    + cbn [find DemandModel.id created_demand]. now rewrite String.eqb_refl.
    + apply (first_demand_none (db w)). exact Hfresh.
  - rewrite filter_app. cbn [filter created_demand DemandModel.account_id
                             opt_eqb]. now rewrite String.eqb_refl.
Qed.

Lemma create_demand_fresh_witness :
  exists row w',
    create_demand sample_strptime same_second engineer "ana" world_account
    = (Ok row, w') /\
    DemandModel.id row = "DEM-20240115093000" /\
    DemandModel.sno row = 1%Z /\
    get_demand_by_id "DEM-20240115093000" w' = (Ok (Some row), w') /\
    get_demands_by_account "ACC-20240115093000" w' = (Ok [row], w').
Proof.
  edestruct (@create_demand_fresh sample_strptime same_second world_account
               engineer "ana") as (row & w' & C & R & _ & _ & _ & G & L).
  - eexists. split; [left; reflexivity|reflexivity].
  - right. lazy. discriminate.
  - exact I.
  - reflexivity.
  - reflexivity.
  - intros d [].
  - exists row, w'. split; [exact C|]. subst row.
    split; [reflexivity|]. split; [reflexivity|]. split; [exact G|exact L].
Defined.

(** ** Deleting demands *)

Lemma NoDup_map_eq {A B} (f : A -> B) (l : list A) (x y : A) :
  NoDup (map f l) -> In x l -> In y l -> f x = f y -> x = y.
Proof.
  induction l as [|a l IH]; cbn; [intros _ []|].
  intros N. inversion N as [|? ? Hnot N']; subst.
  intros [->|Hx] [->|Hy] E; auto.
  - exfalso. apply Hnot. rewrite E. now apply in_map.
  - exfalso. apply Hnot. rewrite <- E. now apply in_map.
Qed.

Lemma find_unique_demand (l : list DemandModel.t) (d : DemandModel.t) :
  NoDup (map DemandModel.id l) -> In d l ->
  find (fun e => DemandModel.id e =? DemandModel.id d) l = Some d.
Proof.
  intros N Hd.
  destruct (find _ l) as [e|] eqn:F.
  - apply find_some in F as [He E]. apply String.eqb_eq in E.
    f_equal. exact (NoDup_map_eq _ _ _ _ N He Hd E).
  - pose proof (find_none _ _ F d Hd) as X. cbn in X.
    now rewrite String.eqb_refl in X.
Qed.

(** X6. Deleting a stored demand, in a store whose demand ids and [sno]s are
    unique: the call returns [True], exactly that row is gone, its id is no
    longer fetched, and the accounts are untouched. *)
Theorem delete_demand_removes
    (w : World) (demand_id : string) (demand : DemandModel.t) :
  NoDup (map DemandModel.id (demands (db w))) ->
  NoDup (map DemandModel.sno (demands (db w))) ->
  first_demand (db w) demand_id = Some demand ->
  exists w',
    delete_demand demand_id w = (Ok true, w') /\
    (forall e, In e (demands (db w')) <->
               In e (demands (db w)) /\ e <> demand) /\
    get_demand_by_id demand_id w' = (Ok None, w') /\
    accounts (db w') = accounts (db w).
Proof.
  intros Ni Ns F. pose proof (first_demand_some _ _ F) as [Hd Eid].
  eexists. split.
  { unfold delete_demand, bind, get_store, put_store, ret. cbn [db].
    rewrite F. reflexivity. }
  cbn [db demands accounts].
  assert (forall e, In e (filter (fun e => negb (DemandModel.sno e =?
                                                 DemandModel.sno demand)%Z)
                                 (demands (db w))) <->
                    In e (demands (db w)) /\ e <> demand) as Mem.
  { intros e. rewrite filter_In, negb_true_iff, Z.eqb_neq. split.
    - intros [He N]. split; [assumption|]. intros ->. now apply N.
    - intros [He N]. split; [assumption|]. intros E. apply N.
      exact (NoDup_map_eq _ _ _ _ Ns He Hd E). }
  split; [exact Mem|]. split; [|reflexivity].
  unfold get_demand_by_id, bind, get_store, ret. cbn [db].
  unfold first_demand. cbn [demands].
  destruct (find _ (filter _ _)) as [e|] eqn:Fe; [|reflexivity].
  exfalso. apply find_some in Fe as [He E]. apply String.eqb_eq in E.
  apply Mem in He as [He N]. apply N.
  apply (NoDup_map_eq _ _ _ _ Ni He Hd). congruence.
Qed.

Lemma delete_demand_removes_witness :
  exists w',
    delete_demand "DEM-20240115093000" world_clones = (Ok true, w') /\
    get_demand_by_id "DEM-20240115093000" w' = (Ok None, w') /\
    List.length (demands (db w')) = 2.
Proof.
  edestruct (@delete_demand_removes world_clones "DEM-20240115093000")
    as (w' & D & _ & G & _).
  - lazy. repeat constructor; cbn; intuition discriminate.
  - lazy. repeat constructor; cbn; intuition discriminate.
  - reflexivity.
  - exists w'. split; [exact D|]. split; [exact G|].
    lazy in D. injection D as <-. reflexivity.
Defined.

Lemma filter_swap {A} (p q : A -> bool) (l : list A) :
  filter p (filter q l) = filter q (filter p l).
Proof.
  induction l as [|a l IH]; cbn; [reflexivity|].
  destruct (q a) eqn:Q, (p a) eqn:P; cbn; rewrite ?Q, ?P, IH; reflexivity.
Qed.

(** X7. Deletion is refused, never cascaded, and the refusal ends with the
    last reference.  An account whose only demand is [demand] cannot be
    deleted; once that demand is deleted the same call succeeds. *)
Theorem delete_account_after_last_demand
    (w : World) (account_id : string) (account : AccountModel.t)
    (demand : DemandModel.t) :
  NoDup (map DemandModel.id (demands (db w))) ->
  first_account (db w) account_id = Some account ->
  demands_of (db w) account_id = [demand] ->
  delete_account account_id w = (Ok false, w) /\
  exists w1 w2,
    delete_demand (DemandModel.id demand) w = (Ok true, w1) /\
    delete_account account_id w1 = (Ok true, w2) /\
    get_account_by_id account_id w2 = (Ok None, w2) /\
    demands_of (db w2) account_id = [].
Proof.
  intros Ni F L.
  assert (In demand (demands (db w))) as Hd.
  { assert (In demand (demands_of (db w) account_id)) as H
      by (rewrite L; now left).
    unfold demands_of in H. now apply filter_In in H. }
  split.
  { unfold delete_account, bind, get_store, ret. cbn [db].
    rewrite F, L. reflexivity. }
  eexists. eexists. split.
  { unfold delete_demand, bind, get_store, put_store, ret. cbn [db].
    unfold first_demand. rewrite (find_unique_demand _ _ Ni Hd). reflexivity. }
  assert (filter (fun d => opt_eqb (DemandModel.account_id d) account_id)
            (filter (fun e => negb (DemandModel.sno e =?
                                    DemandModel.sno demand)%Z)
                    (demands (db w))) = []) as Gone.
  { rewrite filter_swap. fold (demands_of (db w) account_id). rewrite L.
    cbn. now rewrite Z.eqb_refl. }
  split.
  { unfold delete_account, bind, get_store, put_store, ret.
    cbn [db ticks accounts demands]. unfold first_account. cbn [accounts].
    unfold first_account in F. rewrite F. unfold demands_of. cbn [demands].
    rewrite Gone. reflexivity. }
  cbn [db accounts demands]. split.
  - unfold get_account_by_id, bind, get_store, ret, first_account.
    cbn [db accounts].
    pose proof (first_account_some _ _ F) as [_ ->].
    now rewrite find_filter_gone.
  - unfold demands_of. cbn [demands]. exact Gone.
Qed.

Lemma delete_account_after_last_demand_witness :
  delete_account "ACC-20240115093000" world_demand = (Ok false, world_demand)
  /\
  exists w1 w2,
    delete_demand "DEM-20240115093000" world_demand = (Ok true, w1) /\
    delete_account "ACC-20240115093000" w1 = (Ok true, w2) /\
    get_account_by_id "ACC-20240115093000" w2 = (Ok None, w2).
Proof.
  edestruct (@delete_account_after_last_demand world_demand
               "ACC-20240115093000") as (R & w1 & w2 & D1 & D2 & G & _).
  - lazy. repeat constructor; cbn; intuition discriminate.
  - reflexivity.
  - reflexivity.
  - split; [exact R|]. exists w1, w2. split; [exact D1|]. auto.
Defined.

(** X8. A deleted account takes no more demands.  Once [delete_account] has
    returned [True], the account's listing is empty and creating a demand
    for it raises the 404 "Referenced account not found". *)
Theorem create_demand_after_delete_account
    (strptime : string -> option date) (clock : nat -> datetime)
    (w w' : World) (account_id : string) (demand_data : DemandCreate.t)
    (user_id : string) :
  delete_account account_id w = (Ok true, w') ->
  DemandCreate.account_id demand_data = account_id ->
  get_demands_by_account account_id w' = (Ok [], w') /\
  create_demand strptime clock demand_data user_id w'
  = (Raise (HTTPException 404 "Referenced account not found"), w').
Proof.
  unfold delete_account, bind, get_store, put_store, ret. cbn [db].
  destruct (first_account (db w) account_id) as [a|] eqn:F; [|discriminate].
  pose proof (first_account_some _ _ F) as [_ Eid].
  destruct (0 <? _)%nat eqn:C; [discriminate|].
  intros [= <-] E. split.
  - unfold get_demands_by_account, bind, get_store, ret. cbn [db].
    unfold demands_of in *. cbn [demands].
    destruct (filter _ _); [reflexivity|discriminate].
  - unfold create_demand, bind, get_store. cbn [db].
    unfold first_account. cbn [accounts]. rewrite E, Eid.
    now rewrite find_filter_gone.
Qed.

Lemma create_demand_after_delete_account_witness :
  exists w',
    delete_account "ACC-20240115093000" world_account = (Ok true, w') /\
    create_demand sample_strptime same_second engineer "ana" w'
    = (Raise (HTTPException 404 "Referenced account not found"), w').
Proof.
  eexists.
  assert (delete_account "ACC-20240115093000" world_account = (Ok true, _))
    as D by (lazy; reflexivity).
  split; [exact D|].
  exact (proj2 (@create_demand_after_delete_account sample_strptime
                  same_second world_account _ "ACC-20240115093000" engineer
                  "ana" D eq_refl)).
Defined.

(** ** Partial updates of demands *)

(** An update of a stored demand that names an unknown account or carries
    an indigestible date or an integer beyond 64 bits raises and writes
    nothing. *)
Lemma update_demand_cases
    (strptime : string -> option date) (clock : nat -> datetime)
    (w : World) (demand_id : string) (demand : DemandModel.t)
    (demand_data : DemandUpdate.t) (user_id : string) :
  first_demand (db w) demand_id = Some demand ->
  (account_ref_accepted (db w) (DemandUpdate.account_id demand_data) /\
   demand_dates_accepted strptime demand_data /\
   demand_ints_accepted demand_data) \/
  exists e,
    fst (update_demand strptime clock demand_id demand_data user_id w)
    = Raise e /\
    db (snd (update_demand strptime clock demand_id demand_data user_id w))
    = db w.
Proof.
  intros F. unfold update_demand, bind, get_store. cbn [db]. rewrite F.
  destruct (check_account_id_cases (db w)
              (DemandUpdate.account_id demand_data) w) as [[C R]|C];
    rewrite C; [|right; eexists; split; reflexivity].
  do 2 update_step. unfold now. cbn [db ticks].
  do 4 update_step.
  left. split; [exact R|]. split; split;
    solve [eapply parse_flush_ok; eassumption
          |eapply bind_given_ok; eassumption].
Qed.

Lemma find_replace_demand_other (d d' : DemandModel.t) (key : string)
    (l : list DemandModel.t) :
  NoDup (map DemandModel.sno l) -> In d l ->
  DemandModel.sno d' = DemandModel.sno d ->
  DemandModel.id d' = DemandModel.id d ->
  key <> DemandModel.id d ->
  find (fun e => DemandModel.id e =? key) (replace_demand d' l)
  = find (fun e => DemandModel.id e =? key) l.
Proof.
  intros Ns Hd Es Ei N. unfold replace_demand.
  assert (forall e, In e l -> DemandModel.sno e = DemandModel.sno d' -> e = d)
    as Only.
  { intros e He E. apply (NoDup_map_eq _ _ _ _ Ns He Hd). congruence. }
  clear Ns Hd. induction l as [|e l IH]; cbn [map find]; [reflexivity|].
  rewrite IH by (intros e0 H0; apply Only; now right).
  destruct (DemandModel.sno e =? DemandModel.sno d')%Z eqn:S; [|reflexivity].
  apply Z.eqb_eq in S. rewrite (Only e (or_introl eq_refl) S), Ei.
  destruct (DemandModel.id d =? key) eqn:K; [|reflexivity].
  apply String.eqb_eq in K. congruence.
Qed.

(** X9. The frame of a demand update, in a store with unique [sno]s.
    Whatever the call returns, every field absent from the request, and
    [sno], [id], [added_by] and [added_on], are as before; no other demand
    and no account changes.  The call raises, writing nothing, only over an
    [account_id] that names no stored account, a date it cannot digest or
    an [allocation_percentage] or [probability] beyond 64 bits; otherwise
    it returns the updated row, which the store then holds, with each field
    of the request written and the audit stamp refreshed. *)
Theorem update_demand_frame
    (strptime : string -> option date) (clock : nat -> datetime)
    (w : World) (demand_id : string) (demand : DemandModel.t)
    (demand_data : DemandUpdate.t) (user_id : string) :
  NoDup (map DemandModel.sno (demands (db w))) ->
  first_demand (db w) demand_id = Some demand ->
  let out := update_demand strptime clock demand_id demand_data user_id w in
  (exists stored,
      first_demand (db (snd out)) demand_id = Some stored /\
      demand_frame demand_data demand stored) /\
  (forall key, key <> demand_id ->
               first_demand (db (snd out)) key = first_demand (db w) key) /\
  accounts (db (snd out)) = accounts (db w) /\
  ((account_ref_accepted (db w) (DemandUpdate.account_id demand_data) /\
    demand_dates_accepted strptime demand_data /\
    demand_ints_accepted demand_data) \/
   exists e, fst out = Raise e /\ db (snd out) = db w) /\
  (account_ref_accepted (db w) (DemandUpdate.account_id demand_data) ->
   demand_dates_accepted strptime demand_data ->
   demand_ints_accepted demand_data ->
   exists demand',
     fst out = Ok (Some demand') /\
     first_demand (db (snd out)) demand_id = Some demand' /\
     demand_written strptime demand_data user_id
                    (date_of (clock (ticks w))) demand').
Proof.
  intros Ns F out.
  pose proof (first_demand_some _ _ F) as [Hd Eid].
  assert (account_ref_accepted (db w) (DemandUpdate.account_id demand_data) ->
          demand_dates_accepted strptime demand_data ->
          demand_ints_accepted demand_data ->
          first_demand (db (snd out)) demand_id
          = Some (updated_demand strptime demand demand_data user_id
                                 (date_of (clock (ticks w)))) /\
          fst out = Ok (Some (updated_demand strptime demand demand_data
                                user_id (date_of (clock (ticks w))))) /\
          (forall key, key <> demand_id ->
             first_demand (db (snd out)) key = first_demand (db w) key) /\
          accounts (db (snd out)) = accounts (db w)) as Run.
  { intros R A Z. unfold out.
    rewrite (@update_demand_run strptime clock w demand_id demand demand_data
               user_id F R A Z).
    cbn [fst snd db accounts demands]. unfold first_demand.
    cbn [demands]. repeat split.
    - apply find_replace_demand_same with (d := demand);
        [exact Eid|reflexivity|exact F].
    - intros key N.
      apply find_replace_demand_other with (d := demand);
        auto; congruence. }
  pose proof (@update_demand_cases strptime clock w demand_id demand
                demand_data user_id F) as Cases. fold out in Cases.
  split; [|split; [|split; [|split]]].
  - destruct Cases as [(R & A & Z)|(e & _ & ->)].
    + destruct (Run R A Z) as (S & _). eexists. split; [exact S|].
      unfold demand_frame. frame_fields.
    + exists demand. split; [exact F|].
      unfold demand_frame. repeat split; reflexivity.
  - destruct Cases as [(R & A & Z)|(e & _ & ->)];
      [apply (Run R A Z)|reflexivity].
  - destruct Cases as [(R & A & Z)|(e & _ & ->)];
      [apply (Run R A Z)|reflexivity].
  - exact Cases.
  - intros R A Z. destruct (Run R A Z) as (S & Ok' & _).
    eexists. split; [exact Ok'|]. split; [exact S|].
    unfold demand_written. frame_fields.
Qed.

Lemma update_demand_frame_witness :
  exists demand demand',
    first_demand (db world_clones) "DEM-20240115093000" = Some demand /\
    fst (update_demand sample_strptime same_second "DEM-20240115093000"
                       clear_original_start "ben" world_clones)
    = Ok (Some demand') /\
    DemandModel.original_start_date demand' = None /\
    DemandModel.role demand' = DemandModel.role demand /\
    DemandModel.account_id demand' = DemandModel.account_id demand /\
    DemandModel.last_updated_by demand' = "ben".
Proof.
  eexists.
  edestruct (@update_demand_frame sample_strptime same_second world_clones
               "DEM-20240115093000")
    with (demand_data := clear_original_start) (user_id := "ben")
    as ((stored & S & Fr) & _ & _ & _ & Acc).
  - lazy. repeat constructor; cbn; intuition discriminate.
  - reflexivity.
  - destruct Acc as (demand' & R & S' & Wr);
      [exact I|repeat split|repeat split|].
    rewrite S in S'. injection S' as ->.
    exists demand'. split; [reflexivity|]. split; [exact R|].
    destruct Wr as (_ & _ & _ & _ & _ & _ & Wo & _ & _ & _ & _ & _ & _ & _
                    & Wl & _).
    destruct Fr as (Fa & _ & Frole & _).
    split; [exact (Wo None eq_refl)|].
    split; [exact (Frole eq_refl)|]. split; [exact (Fa eq_refl)|exact Wl].
Defined.


(** ** What a call can do to the store *)

Ltac effect_go m P :=
  let w' := fresh "w" in
  destruct m as [[?y|?e] w'] eqn:?E; cbn [snd] in P; subst w';
  [|left; reflexivity].

(** Splits a step of a call: it goes through, or the call raises and the
    store is as before. *)
Ltac effect_step :=
  match goal with
  | |- context [parse_optional ?sp ?v ?w] =>
      let P := fresh "P" in
      pose proof (parse_optional_pure sp v w) as P;
      effect_go (parse_optional sp v w) P
  | |- context [parse_field ?sp ?x ?w] =>
      let P := fresh "P" in
      pose proof (parse_field_pure sp x w) as P;
      effect_go (parse_field sp x w) P
  | |- context [flush_date ?x ?old ?w] =>
      let P := fresh "P" in
      pose proof (flush_date_pure x old w) as P;
      effect_go (flush_date x old w) P
  | |- context [bind_given ?x ?w] =>
      let P := fresh "P" in
      pose proof (bind_given_pure x w) as P;
      effect_go (bind_given x w) P
  | |- context [bind_int ?x ?w] =>
      let P := fresh "P" in
      pose proof (bind_int_pure x w) as P;
      effect_go (bind_int x w) P
  end.

Lemma create_account_effect
    (strptime : string -> option date) (clock : nat -> datetime)
    (w : World) (account_data : AccountCreate.t) (user_id : string) :
  db (snd (create_account strptime clock account_data user_id w)) = db w \/
  exists a,
    (forall b, In b (accounts (db w)) ->
               AccountModel.id b <> AccountModel.id a) /\
    (exists p, AccountModel.probability a = Some (value p)) /\
    db (snd (create_account strptime clock account_data user_id w))
    = mk_store (accounts (db w) ++ [a]) (demands (db w)).
Proof.
  unfold create_account, bind, now. cbn [db ticks]. do 3 effect_step.
  unfold insert_account, bind, get_store, put_store, raise, ret.
  cbn [db ticks]. destruct (existsb _ _) eqn:X; [left; reflexivity|].
  right. eexists. split; [|split; [|reflexivity]].
  - intros b Hb Eb. apply not_true_iff_false in X. apply X.
    apply existsb_exists. exists b. split; [assumption|].
    now apply String.eqb_eq.
  - cbn. eauto.
Qed.

Lemma update_account_effect
    (strptime : string -> option date) (clock : nat -> datetime)
    (w : World) (account_id : string) (account_data : AccountUpdate.t)
    (user_id : string) :
  db (snd (update_account strptime clock account_id account_data user_id w))
  = db w \/
  exists a a',
    In a (accounts (db w)) /\
    AccountModel.id a' = AccountModel.id a /\
    (AccountModel.probability a' = AccountModel.probability a \/
     exists p, AccountModel.probability a' = Some (value p)) /\
    db (snd (update_account strptime clock account_id account_data user_id w))
    = mk_store (replace_account a' (accounts (db w))) (demands (db w)).
Proof.
  unfold update_account, bind, get_store. cbn [db].
  destruct (first_account (db w) account_id) as [a|] eqn:F;
    [|left; reflexivity].
  apply first_account_some in F as [Ha _].
  do 3 effect_step. unfold now. cbn [db ticks]. do 3 effect_step.
  unfold put_store, ret. cbn [snd db ticks].
  right. exists a. eexists. split; [exact Ha|]. split; [|split].
  3: reflexivity.
  - reflexivity.
  - cbn. destruct (AccountUpdate.probability account_data) as [p|]; cbn;
      [right; eauto|now left].
Qed.

Lemma delete_account_effect (w : World) (account_id : string) :
  db (snd (delete_account account_id w)) = db w \/
  exists key,
    db (snd (delete_account account_id w))
    = mk_store (filter (fun b => negb (AccountModel.id b =? key))
                       (accounts (db w)))
               (demands (db w)).
Proof.
  unfold delete_account, bind, get_store. cbn [db].
  destruct (first_account (db w) account_id) as [a|]; [|left; reflexivity].
  destruct (0 <? _)%nat; [left; reflexivity|].
  right. eexists. reflexivity.
Qed.

Lemma create_demand_effect
    (strptime : string -> option date) (clock : nat -> datetime)
    (w : World) (demand_data : DemandCreate.t) (user_id : string) :
  db (snd (create_demand strptime clock demand_data user_id w)) = db w \/
  exists row,
    (forall d, In d (demands (db w)) ->
               DemandModel.id d <> DemandModel.id row) /\
    DemandModel.sno row = next_sno (demands (db w)) /\
    db (snd (create_demand strptime clock demand_data user_id w))
    = mk_store (accounts (db w)) (demands (db w) ++ [row]).
Proof.
  unfold create_demand, bind, get_store. cbn [db].
  destruct (first_account (db w) _); [|left; reflexivity].
  unfold now. cbn [db ticks]. do 2 effect_step.
  unfold insert_demand, bind, get_store. cbn [db ticks]. do 2 effect_step.
  unfold put_store, raise, ret.
  cbn [db ticks]. destruct (existsb _ _) eqn:X; [left; reflexivity|].
  right. eexists. split; [|split]. 3: reflexivity.
  - intros d Hd Ed. apply not_true_iff_false in X. apply X.
    apply existsb_exists. exists d. split; [assumption|].
    now apply String.eqb_eq.
  - reflexivity.
Qed.

Lemma update_demand_effect
    (strptime : string -> option date) (clock : nat -> datetime)
    (w : World) (demand_id : string) (demand_data : DemandUpdate.t)
    (user_id : string) :
  db (snd (update_demand strptime clock demand_id demand_data user_id w))
  = db w \/
  exists d d',
    In d (demands (db w)) /\
    DemandModel.sno d' = DemandModel.sno d /\
    DemandModel.id d' = DemandModel.id d /\
    db (snd (update_demand strptime clock demand_id demand_data user_id w))
    = mk_store (accounts (db w)) (replace_demand d' (demands (db w))).
Proof.
  unfold update_demand, bind, get_store. cbn [db].
  destruct (first_demand (db w) demand_id) as [d|] eqn:F;
    [|left; reflexivity].
  apply first_demand_some in F as [Hd _].
  destruct (check_account_id_cases (db w)
              (DemandUpdate.account_id demand_data) w) as [[C _]|C];
    rewrite C; [|left; reflexivity].
  do 2 effect_step. unfold now. cbn [db ticks]. do 4 effect_step.
  unfold put_store, ret. cbn [snd db ticks].
  right. exists d. eexists. split; [exact Hd|]. split; [|split].
  3: reflexivity.
  - reflexivity.
  - reflexivity.
Qed.

Lemma delete_demand_effect (w : World) (demand_id : string) :
  db (snd (delete_demand demand_id w)) = db w \/
  exists n,
    db (snd (delete_demand demand_id w))
    = mk_store (accounts (db w))
               (filter (fun e => negb (DemandModel.sno e =? n)%Z)
                       (demands (db w))).
Proof.
  unfold delete_demand, bind, get_store. cbn [db].
  destruct (first_demand (db w) demand_id) as [d|]; [|left; reflexivity].
  right. eexists. reflexivity.
Qed.

Lemma clone_demand_effect
    (clock : nat -> datetime) (w : World) (demand_id : string) (count : Z)
    (user_id : string) :
  db (snd (clone_demand clock demand_id count user_id w)) = db w \/
  exists pending rows,
    numbered pending /\
    flush_inserts (demands (db w)) pending = Some rows /\
    db (snd (clone_demand clock demand_id count user_id w))
    = mk_store (accounts (db w)) (demands (db w) ++ rows).
Proof.
  unfold clone_demand, bind, get_store, now. cbn [db ticks].
  destruct (first_demand (db w) demand_id) as [d|]; [|left; reflexivity].
  rewrite clone_loop_run.
  unfold insert_demands, bind, get_store, put_store, raise, ret.
  cbn [db ticks].
  destruct (flush_inserts _ _) as [rows|] eqn:F; [|left; reflexivity].
  right. eexists. exists rows. split; [|split; [exact F|reflexivity]].
  intros mk Hmk n m. apply in_map_iff in Hmk as (k & <- & _).
  split; reflexivity.
Qed.

(** ** Keys stay unique *)

Lemma NoDup_snoc {A} (l : list A) (x : A) :
  NoDup l -> ~ In x l -> NoDup (l ++ [x]).
Proof.
  induction 1 as [|a l Ha N IH]; cbn; intros Hx.
  - constructor; [intros []|constructor].
  - constructor.
    + rewrite in_app_iff. cbn. intuition congruence.
    + apply IH. intuition.
Qed.

(** Dropping rows keeps a key unique. *)
Lemma filter_keeps_unique {Row Key} (key : Row -> Key) (keep : Row -> bool)
    (rows : list Row) (U : NoDup (map key rows)) :
  NoDup (map key (filter keep rows)).
Proof.
  induction rows as [|r rows IH]; cbn; [exact U|].
  inversion U as [|? ? Hnot U']; subst.
  destruct (keep r); cbn; [|auto]. constructor; [|auto].
  rewrite in_map_iff. intros (b & E & Hb). apply filter_In in Hb as [Hb _].
  apply Hnot. rewrite <- E. now apply in_map.
Qed.

Lemma flush_inserts_unique (pending : list (Z -> DemandModel.t)) :
  numbered pending ->
  forall table rows,
    flush_inserts table pending = Some rows ->
    NoDup (map DemandModel.id table) ->
    NoDup (map DemandModel.sno table) ->
    NoDup (map DemandModel.id (table ++ rows)) /\
    NoDup (map DemandModel.sno (table ++ rows)).
Proof.
  induction pending as [|mk rest IH]; intros Num table rows; cbn.
  - intros [= <-]. now rewrite app_nil_r.
  - destruct (existsb _ table) eqn:X; [discriminate|].
    destruct (flush_inserts _ rest) as [rows'|] eqn:F; [|discriminate].
    cbn. intros [= <-] Ni Ns.
    replace (table ++ mk (next_sno table) :: rows')
      with ((table ++ [mk (next_sno table)]) ++ rows')
      by (now rewrite <- app_assoc).
    apply (IH (fun m H => Num m (or_intror H)) _ _ F).
    + rewrite map_app. cbn. apply NoDup_snoc; [assumption|].
      rewrite in_map_iff. intros (d & E & Hd).
      apply not_true_iff_false in X. apply X. apply existsb_exists.
      exists d. split; [assumption|]. now apply String.eqb_eq.
    + rewrite map_app. cbn. apply NoDup_snoc; [assumption|].
      rewrite in_map_iff. intros (d & E & Hd).
      pose proof (next_sno_above _ _ Hd) as Lt.
      rewrite (proj1 (Num mk (or_introl eq_refl) _ 0%Z)) in E. lia.
Qed.

Lemma replace_demand_keys (d d' : DemandModel.t) (l : list DemandModel.t) :
  NoDup (map DemandModel.sno l) -> In d l ->
  DemandModel.sno d' = DemandModel.sno d ->
  DemandModel.id d' = DemandModel.id d ->
  map DemandModel.id (replace_demand d' l) = map DemandModel.id l /\
  map DemandModel.sno (replace_demand d' l) = map DemandModel.sno l.
Proof.
  intros Ns Hd Es Ei. unfold replace_demand. rewrite !map_map.
  split; apply map_ext_in; intros e He;
    destruct (DemandModel.sno e =? DemandModel.sno d')%Z eqn:S;
    try reflexivity; apply Z.eqb_eq in S.
  - rewrite Ei. f_equal. symmetry.
    apply (NoDup_map_eq _ _ _ _ Ns He Hd). congruence.
  - congruence.
Qed.

Section UniqueKeys.

Variable strptime : string -> option date.
Variable clock : nat -> datetime.

Lemma run_unique_keys (o : op) (w : World) :
  unique_keys (db w) -> unique_keys (db (run strptime clock o w)).
Proof.
  intros (Na & Ni & Ns).
  assert (forall pending rows s',
             numbered pending ->
             flush_inserts (demands (db w)) pending = Some rows ->
             s' = mk_store (accounts (db w)) (demands (db w) ++ rows) ->
             unique_keys s') as Ins.
  { intros pending rows s' Num F ->.
    destruct (flush_inserts_unique Num _ F Ni Ns) as [Ni' Ns'].
    repeat split; assumption. }
  destruct o; cbn [run].
  - destruct (create_account_effect strptime clock w account_data user_id)
      as [-> |(a & Fr & _ & ->)]; [repeat split; assumption|].
    repeat split; cbn [accounts demands]; try assumption.
    rewrite map_app. cbn. apply NoDup_snoc; [assumption|].
    rewrite in_map_iff. intros (b & E & Hb). exact (Fr b Hb E).
  - destruct (update_account_effect strptime clock w account_id account_data
                                    user_id)
      as [-> |(a & a' & _ & _ & _ & ->)]; [repeat split; assumption|].
    repeat split; cbn [accounts demands]; try assumption.
    now rewrite replace_account_ids.
  - destruct (delete_account_effect w account_id) as [-> |(key & ->)];
      [repeat split; assumption|].
    repeat split; cbn [accounts demands]; try assumption.
    now apply filter_keeps_unique.
  - destruct (create_demand_effect strptime clock w demand_data user_id)
      as [-> |(row & Fr & Sn & ->)]; [repeat split; assumption|].
    repeat split; cbn [accounts demands]; try assumption;
      rewrite map_app; cbn; (apply NoDup_snoc; [assumption|]);
      rewrite in_map_iff; intros (d & E & Hd).
    + exact (Fr d Hd E).
    + pose proof (next_sno_above _ _ Hd) as Lt. lia.
  - destruct (update_demand_effect strptime clock w demand_id demand_data
                                   user_id)
      as [-> |(d & d' & Hd & Es & Ei & ->)]; [repeat split; assumption|].
    destruct (@replace_demand_keys d d' (demands (db w)) Ns Hd Es Ei)
      as [Ki Ks].
    repeat split; cbn [accounts demands]; try assumption.
    + now rewrite Ki.
    + now rewrite Ks.
  - destruct (delete_demand_effect w demand_id) as [-> |(n & ->)];
      [repeat split; assumption|].
    repeat split; cbn [accounts demands]; try assumption;
      now apply filter_keeps_unique.
  - destruct (clone_demand_effect clock w demand_id count user_id)
      as [-> |(pending & rows & Num & F & E)]; [repeat split; assumption|].
    exact (Ins _ _ _ Num F E).
Qed.

Lemma run_probability_allowed (o : op) (w : World) :
  (forall a, In a (accounts (db w)) -> probability_allowed a) ->
  forall a, In a (accounts (db (run strptime clock o w))) ->
            probability_allowed a.
Proof.
  intros H. destruct o; cbn [run].
  - destruct (create_account_effect strptime clock w account_data user_id)
      as [-> |(a & _ & P & ->)]; [exact H|].
    cbn [accounts]. intros b Hb. apply in_app_or in Hb as [Hb|[<-|[]]];
      [exact (H b Hb)|exact P].
  - destruct (update_account_effect strptime clock w account_id account_data
                                    user_id)
      as [-> |(a & a' & Ha & _ & P & ->)]; [exact H|].
    cbn [accounts]. unfold replace_account. intros b Hb.
    apply in_map_iff in Hb as (b0 & E & Hb0).
    destruct (AccountModel.id b0 =? AccountModel.id a');
      [|subst b0; exact (H b Hb0)].
    subst b. unfold probability_allowed.
    destruct P as [P|P]; [rewrite P; exact (H a Ha)|exact P].
  - destruct (delete_account_effect w account_id) as [-> |(key & ->)];
      [exact H|].
    cbn [accounts]. intros b Hb. apply filter_In in Hb as [Hb _].
    exact (H b Hb).
  - destruct (create_demand_effect strptime clock w demand_data user_id)
      as [-> |(row & _ & _ & ->)]; exact H.
  - destruct (update_demand_effect strptime clock w demand_id demand_data
                                   user_id)
      as [-> |(d & d' & _ & _ & _ & ->)]; exact H.
  - destruct (delete_demand_effect w demand_id) as [-> |(n & ->)]; exact H.
  - destruct (clone_demand_effect clock w demand_id count user_id)
      as [-> |(pending & rows & _ & _ & ->)]; exact H.
Qed.

(** X12. In every store the services can reach, account ids are pairwise
    distinct, and so are demand ids and demand [sno]s; each call, returning
    or raising, keeps them so. *)
Theorem reachable_unique_keys (w : World) :
  reachable strptime clock w ->
  unique_keys (db w) /\
  (forall o, unique_keys (db (run strptime clock o w))).
Proof.
  intros R.
  assert (unique_keys (db w)) as U.
  { induction R as [|o w R IH]; [|now apply run_unique_keys].
    repeat split; constructor. }
  split; [exact U|]. intros o. now apply run_unique_keys.
Qed.

(** X13. In every store the services can reach, the probability of an
    account is one of 50, 75, 90, 100, and never null. *)
Theorem reachable_probability_allowed (w : World) :
  reachable strptime clock w ->
  forall a, In a (accounts (db w)) ->
    In (AccountModel.probability a)
       [Some 50%Z; Some 75%Z; Some 90%Z; Some 100%Z].
Proof.
  intros R.
  assert (forall a, In a (accounts (db w)) -> probability_allowed a) as P.
  { induction R as [|o w R IH]; [intros a []|].
    now apply run_probability_allowed. }
  intros a Ha. destruct (P a Ha) as [p E].
  rewrite E. destruct p; cbn; auto.
Qed.

End UniqueKeys.

Lemma reachable_unique_keys_witness :
  unique_keys (db world_clones) /\
  List.length (demands (db world_clones)) = 3.
Proof.
  assert (reachable sample_strptime same_second world_clones) as R.
  { unfold world_clones, world_demand, world_account.
    do 3 apply reach_run. apply reach_initial. }
  split; [exact (proj1 (reachable_unique_keys R))|reflexivity].
Defined.

Lemma reachable_probability_allowed_witness :
  exists a,
    In a (accounts (db world_clones)) /\
    AccountModel.client a = Some "Acme" /\
    In (AccountModel.probability a)
       [Some 50%Z; Some 75%Z; Some 90%Z; Some 100%Z].
Proof.
  assert (reachable sample_strptime same_second world_clones) as R.
  { unfold world_clones, world_demand, world_account.
    do 3 apply reach_run. apply reach_initial. }
  eexists. split; [left; reflexivity|]. split; [reflexivity|].
  apply (reachable_probability_allowed R). left. reflexivity.
Defined.

(** ** Dashboard statistics *)

Lemma status_eqb_spec (x y : option string) :
  status_eqb x y = true <-> x = y.
Proof.
  destruct x as [a|], y as [b|]; cbn; try (split; congruence).
  rewrite String.eqb_eq. split; congruence.
Qed.

Lemma existsb_status (k : option string) (l : list (option string)) :
  existsb (status_eqb k) l = true <-> In k l.
Proof.
  rewrite existsb_exists. split.
  - intros (x & Hx & E). apply status_eqb_spec in E. now subst.
  - intros H. exists k. split; [assumption|]. now apply status_eqb_spec.
Qed.

Lemma distinct_In (keys : list (option string)) (k : option string) :
  In k (distinct keys) <-> In k keys.
Proof.
  induction keys as [|x keys IH]; cbn; [reflexivity|].
  destruct (existsb (status_eqb x) keys) eqn:X.
  - apply existsb_status in X. rewrite IH. split; [auto|].
    intros [<-|H]; assumption.
  - cbn. now rewrite IH.
Qed.

Lemma distinct_NoDup (keys : list (option string)) : NoDup (distinct keys).
Proof.
  induction keys as [|x keys IH]; cbn; [constructor|].
  destruct (existsb (status_eqb x) keys) eqn:X; [assumption|].
  constructor; [|assumption]. rewrite distinct_In.
  intros H. apply existsb_status in H. congruence.
Qed.

Lemma dict_set_fresh {V} (d : list (option string * V))
    (k : option string) (v : V) :
  ~ In k (map fst d) -> dict_set status_eqb d k v = d ++ [(k, v)].
Proof.
  induction d as [|[k' v'] d IH]; cbn; [reflexivity|].
  intros N. destruct (status_eqb k' k) eqn:E.
  - apply status_eqb_spec in E. exfalso. auto.
  - rewrite IH; auto.
Qed.

Lemma collect_distinct (rows acc : list (option string * nat)) :
  NoDup (map fst (acc ++ rows)) ->
  fold_left (fun d row => dict_set status_eqb d (fst row) (snd row)) rows acc
  = acc ++ rows.
Proof.
  revert acc. induction rows as [|[k v] rows IH]; intros acc N; cbn.
  - now rewrite app_nil_r.
  - assert (acc ++ (k, v) :: rows = (acc ++ [(k, v)]) ++ rows) as E
      by now rewrite <- app_assoc.
    rewrite E in *. rewrite dict_set_fresh; [now apply IH|].
    rewrite !map_app in N. apply NoDup_app_remove_r in N.
    cbn in N. apply NoDup_remove_2 in N. now rewrite app_nil_r in N.
Qed.

Lemma str_keys_get (rows : list (option string * nat))
    (d : list (string * nat)) :
  str_keys rows = Some d ->
  map snd d = map snd rows /\
  forall k, dict_get String.eqb d k = dict_get status_eqb rows (Some k).
Proof.
  revert d. induction rows as [|[[k'|] v] rows IH]; intros d; cbn.
  - intros [= <-]. auto.
  - destruct (str_keys rows) as [d'|]; [|discriminate].
    cbn. intros [= <-]. destruct (IH d' eq_refl) as [S G].
    cbn. split; [now rewrite S|]. intros k. now rewrite G.
  - discriminate.
Qed.

Lemma str_keys_total (rows : list (option string * nat)) :
  ~ In None (map fst rows) -> exists d, str_keys rows = Some d.
Proof.
  induction rows as [|[[k'|] v] rows IH]; cbn; intros N.
  - eauto.
  - destruct IH as [d ->]; [tauto|]. cbn. eauto.
  - exfalso. auto.
Qed.

Lemma str_keys_null (rows : list (option string * nat)) :
  In None (map fst rows) -> str_keys rows = None.
Proof.
  induction rows as [|[[k'|] v] rows IH]; cbn; [intros []| |reflexivity].
  intros [E|H]; [discriminate|]. now rewrite IH.
Qed.

Lemma dict_get_map (f : option string -> nat) (ks : list (option string))
    (k : option string) :
  (In k ks -> dict_get status_eqb (map (fun x => (x, f x)) ks) k
              = Some (f k)) /\
  (~ In k ks -> dict_get status_eqb (map (fun x => (x, f x)) ks) k = None).
Proof.
  induction ks as [|x ks [IH1 IH2]]; cbn; [split; [intros []|reflexivity]|].
  destruct (status_eqb x k) eqn:E.
  - apply status_eqb_spec in E. subst. split; [reflexivity|tauto].
  - assert (x <> k) as N
      by (intros ->; rewrite (proj2 (status_eqb_spec k k) eq_refl) in E;
          discriminate).
    split; [intros [?|?]; [contradiction|auto]|intros ?; apply IH2; tauto].
Qed.

Lemma list_sum_cons (n : nat) (l : list nat) :
  list_sum (n :: l) = n + list_sum l.
Proof. reflexivity. Qed.

Lemma count_none (ks : list (option string)) (x : option string) :
  ~ In x ks ->
  list_sum (map (fun k => if status_eqb k x then 1 else 0) ks) = 0.
Proof.
  induction ks as [|k ks IH]; cbn [map]; [reflexivity|]. intros N.
  rewrite list_sum_cons, IH by (cbn in N; tauto).
  destruct (status_eqb k x) eqn:E; [|reflexivity].
  apply status_eqb_spec in E. exfalso. apply N. now left.
Qed.

Lemma count_one (ks : list (option string)) (x : option string) :
  NoDup ks -> In x ks ->
  list_sum (map (fun k => if status_eqb k x then 1 else 0) ks) = 1.
Proof.
  induction 1 as [|k ks Hk N IH]; cbn [map]; [intros []|].
  rewrite list_sum_cons. intros [E|H].
  - subst k. rewrite (proj2 (status_eqb_spec x x) eq_refl).
    now rewrite count_none.
  - rewrite (IH H). destruct (status_eqb k x) eqn:E; [|reflexivity].
    apply status_eqb_spec in E. subst. contradiction.
Qed.

(** The groups partition the rows. *)
Lemma group_sum (ks keys : list (option string)) :
  NoDup ks -> (forall x, In x keys -> In x ks) ->
  list_sum (map (fun k => List.length (filter (status_eqb k) keys)) ks)
  = List.length keys.
Proof.
  intros N. induction keys as [|x keys IH]; intros Cover.
  - clear. cbn [filter List.length].
    induction ks as [|k ks IHk]; [reflexivity|].
    cbn [map]. now rewrite list_sum_cons, IHk.
  - assert (forall l,
              list_sum (map (fun k => List.length (filter (status_eqb k)
                                                          (x :: keys))) l)
              = list_sum (map (fun k => if status_eqb k x then 1 else 0) l)
                + list_sum (map (fun k => List.length
                                            (filter (status_eqb k) keys)) l))
      as Split.
    { induction l as [|k l IHl]; [reflexivity|].
      cbn [map]. rewrite !list_sum_cons, IHl. cbn [filter].
      destruct (status_eqb k x); cbn [List.length]; lia. }
    rewrite Split, (@count_one ks x N (Cover x (or_introl eq_refl))).
    rewrite IH by (intros y Hy; apply Cover; now right). reflexivity.
Qed.

Lemma status_count_In (k : string) (column : list (option string)) :
  In (Some k) column <-> status_count k column <> 0.
Proof.
  unfold status_count. split.
  - intros H E. apply length_zero_iff_nil in E.
    assert (In (Some k) (filter (fun x => opt_eqb x k) column)) as F.
    { apply filter_In. split; [assumption|]. cbn. apply String.eqb_refl. }
    rewrite E in F. destruct F.
  - intros N. destruct (filter _ column) as [|x l] eqn:F; [now cbn in N|].
    assert (In x (x :: l)) as Hx by now left.
    rewrite <- F in Hx. apply filter_In in Hx as [Hx E].
    apply opt_eqb_true in E. now subst.
Qed.

(** The dictionary built from one status column. *)
Lemma status_dict (column : list (option string)) :
  ~ In None column ->
  exists d,
    str_keys (collect (group_by_count column)) = Some d /\
    list_sum (map snd d) = List.length column /\
    forall k, dict_get String.eqb d k
              = if (status_count k column =? 0)%nat then None
                else Some (status_count k column).
Proof.
  intros Hnull. unfold collect, group_by_count.
  assert (map fst (map (fun k => (k, List.length (filter (status_eqb k)
                                                         column)))
                       (distinct column)) = distinct column) as Keys.
  { rewrite map_map. cbn. apply map_id. }
  rewrite collect_distinct; cbn [app];
    [|rewrite Keys; apply distinct_NoDup].
  destruct (@str_keys_total
              (map (fun k => (k, List.length (filter (status_eqb k) column)))
                   (distinct column))) as [d Hd].
  { rewrite Keys, distinct_In. exact Hnull. }
  exists d. split; [exact Hd|].
  destruct (str_keys_get _ Hd) as [S G]. split.
  - rewrite S, map_map. cbn [snd].
    apply group_sum; [apply distinct_NoDup|].
    intros x Hx. now apply distinct_In.
  - intros k. rewrite G.
    assert (List.length (filter (status_eqb (Some k)) column)
            = status_count k column) as Cnt.
    { unfold status_count. f_equal. apply filter_ext. intros [b|]; cbn;
        [apply String.eqb_sym|reflexivity]. }
    destruct (dict_get_map
                (fun k => List.length (filter (status_eqb k) column))
                (distinct column) (Some k)) as [Yes No].
    destruct (status_count k column =? 0)%nat eqn:Z.
    + apply Nat.eqb_eq in Z. apply No. rewrite distinct_In.
      rewrite status_count_In. lia.
    + apply Nat.eqb_neq in Z. rewrite Yes, Cnt; [reflexivity|].
      apply distinct_In, status_count_In. exact Z.
Qed.

(** X14. Statistics of a store in which no status is null.  The call returns
    the two totals as the numbers of rows; each mapping sends a status to
    the number of rows carrying it when there is one and has no entry for a
    status no row carries; the counts of a mapping add up to its total.
    The store is not touched. *)
Theorem dashboard_stats_counts (w : World) :
  (forall a, In a (accounts (db w)) ->
             AccountModel.opportunity_status a <> None) ->
  (forall d, In d (demands (db w)) -> DemandModel.status d <> None) ->
  exists stats,
    get_dashboard_stats w = (Ok stats, w) /\
    totalAccounts stats = List.length (accounts (db w)) /\
    totalDemands stats = List.length (demands (db w)) /\
    list_sum (map snd (accountsByStatus stats)) = totalAccounts stats /\
    list_sum (map snd (demandsByStatus stats)) = totalDemands stats /\
    (forall k,
        dict_get String.eqb (accountsByStatus stats) k
        = let n := status_count k (map AccountModel.opportunity_status
                                       (accounts (db w))) in
          if (n =? 0)%nat then None else Some n) /\
    (forall k,
        dict_get String.eqb (demandsByStatus stats) k
        = let n := status_count k (map DemandModel.status (demands (db w))) in
          if (n =? 0)%nat then None else Some n).
Proof.
  intros Ha Hd.
  destruct (@status_dict (map AccountModel.opportunity_status
                              (accounts (db w)))) as (da & Ea & Sa & Ga).
  { rewrite in_map_iff. intros (a & E & H). exact (Ha a H E). }
  destruct (@status_dict (map DemandModel.status (demands (db w))))
    as (dd & Ed & Sd & Gd).
  { rewrite in_map_iff. intros (d & E & H). exact (Hd d H E). }
  eexists. split.
  { unfold get_dashboard_stats, bind, get_store, ret. cbn [db].
    rewrite Ea, Ed. reflexivity. }
  cbn [totalAccounts totalDemands accountsByStatus demandsByStatus].
  rewrite Sa, Sd, !length_map. repeat split; auto.
Qed.

Lemma dashboard_stats_counts_witness :
  exists stats,
    get_dashboard_stats world_clones = (Ok stats, world_clones) /\
    totalAccounts stats = 1 /\
    totalDemands stats = 3 /\
    dict_get String.eqb (demandsByStatus stats) "Open" = Some 3 /\
    dict_get String.eqb (demandsByStatus stats) "Staffed" = None.
Proof.
  destruct (@dashboard_stats_counts world_clones)
    as (stats & S & Ta & Td & _ & _ & _ & Gd).
  - intros a [<-|[]]. discriminate.
  - intros d [<-|[<-|[<-|[]]]]; discriminate.
  - exists stats. split; [exact S|]. split; [exact Ta|]. split; [exact Td|].
    split; rewrite Gd; reflexivity.
Defined.

(** X15. A null status breaks the statistics.  If an account has a null
    [opportunity_status] or a demand a null [status], its group arrives
    under the key [None], the response model refuses the mapping and the
    call raises ValueError; the store is not touched. *)
Theorem dashboard_stats_null_status (w : World) :
  (exists a, In a (accounts (db w)) /\
             AccountModel.opportunity_status a = None) \/
  (exists d, In d (demands (db w)) /\ DemandModel.status d = None) ->
  get_dashboard_stats w = (Raise ValueError, w).
Proof.
  assert (forall column, In None column ->
            str_keys (collect (group_by_count column)) = None) as Null.
  { intros column H. unfold collect, group_by_count.
    assert (map fst (map (fun k => (k, List.length (filter (status_eqb k)
                                                           column)))
                         (distinct column)) = distinct column) as Keys.
    { rewrite map_map. cbn. apply map_id. }
    rewrite collect_distinct; cbn [app];
      [|rewrite Keys; apply distinct_NoDup].
    apply str_keys_null. rewrite Keys. now apply distinct_In. }
  intros H. unfold get_dashboard_stats, bind, get_store. cbn [db].
  destruct H as [(a & Hin & E)|(d & Hin & E)].
  - rewrite (Null (map AccountModel.opportunity_status (accounts (db w))));
      [reflexivity|].
    rewrite <- E. now apply in_map.
  - rewrite (Null (map DemandModel.status (demands (db w))));
      [destruct (str_keys _); reflexivity|].
    rewrite <- E. now apply in_map.
Qed.

Lemma dashboard_stats_null_status_witness :
  (exists a, In a (accounts (db world_null_status)) /\
             AccountModel.opportunity_status a = None) /\
  get_dashboard_stats world_null_status = (Raise ValueError, world_null_status).
Proof.
  assert (exists a, In a (accounts (db world_null_status)) /\
                    AccountModel.opportunity_status a = None) as H.
  { eexists. split; [left; reflexivity|reflexivity]. }
  split; [exact H|].
  apply dashboard_stats_null_status. left. exact H.
Defined.

(** ** More on search *)

Lemma lower_percent (c : ascii) :
  Ascii.eqb (lower c) percent = Ascii.eqb c percent.
Proof. destruct c as [[] [] [] [] [] [] [] []]; reflexivity. Qed.

Lemma lower_underscore (c : ascii) :
  Ascii.eqb (lower c) underscore = Ascii.eqb c underscore.
Proof. destruct c as [[] [] [] [] [] [] [] []]; reflexivity. Qed.

Lemma lower_lower (c : ascii) : lower (lower c) = lower c.
Proof. destruct c as [[] [] [] [] [] [] [] []]; reflexivity. Qed.

Lemma lower_nul (c : ascii) : Ascii.eqb (lower c) nul = Ascii.eqb c nul.
Proof. destruct c as [[] [] [] [] [] [] [] []]; reflexivity. Qed.

Lemma lower_lead (c : ascii) : is_lead (lower c) = is_lead c.
Proof. destruct c as [[] [] [] [] [] [] [] []]; reflexivity. Qed.

Lemma lower_continuation (c : ascii) :
  is_continuation (lower c) = is_continuation c.
Proof. destruct c as [[] [] [] [] [] [] [] []]; reflexivity. Qed.

(** Folding the case of a text is folding that of its bytes. *)
Lemma lower_string_bytes (s : string) :
  lower_string s = string_of_list_ascii (map lower (list_ascii_of_string s)).
Proof. induction s as [|b s IH]; cbn; [reflexivity|now rewrite IH]. Qed.

Lemma lower_string_length (s : string) :
  String.length (lower_string s) = String.length s.
Proof. induction s as [|b s IH]; cbn; [reflexivity|now rewrite IH]. Qed.

Lemma lower_string_app (x y : string) :
  lower_string (x ++ y)%string = (lower_string x ++ lower_string y)%string.
Proof. induction x as [|b x IH]; cbn; [reflexivity|now rewrite IH]. Qed.

Lemma lower_string_twice (s : string) :
  lower_string (lower_string s) = lower_string s.
Proof.
  induction s as [|b s IH]; cbn [lower_string]; [reflexivity|].
  now rewrite lower_lower, IH.
Qed.

Lemma lower_string_wildcard (c : string) :
  (lower_string c =? "%") = (c =? "%") /\
  (lower_string c =? "_") = (c =? "_").
Proof.
  destruct c as [|b [|b' c]].
  - split; reflexivity.
  - cbn [lower_string String.eqb]. fold percent underscore.
    now rewrite lower_percent, lower_underscore.
  - cbn [lower_string].
    split; (transitivity false; [|symmetry]); apply String.eqb_neq;
      discriminate.
Qed.

Lemma c_str_lower (s : string) :
  c_str (lower_string s) = lower_string (c_str s).
Proof.
  induction s as [|b s IH]; cbn [lower_string c_str]; [reflexivity|].
  rewrite lower_nul. destruct (Ascii.eqb b nul); [reflexivity|].
  cbn [lower_string]. now rewrite IH.
Qed.

Lemma trail_lower (cs : list string) :
  trail (map lower_string cs) = lower_string (trail cs) /\
  after_trail (map lower_string cs) = map lower_string (after_trail cs).
Proof.
  induction cs as [|c cs [IH1 IH2]]; [split; reflexivity|].
  destruct c as [|b [|b' c]]; cbn [map lower_string trail after_trail];
    [split; reflexivity| |split; reflexivity].
  rewrite lower_continuation. destruct (is_continuation b);
    [|split; reflexivity].
  cbn [lower_string]. now rewrite IH1, IH2.
Qed.

(** Folding the case moves no boundary between characters. *)
Lemma utf8_chars_lower (s : string) :
  utf8_chars (lower_string s) = map lower_string (utf8_chars s).
Proof.
  induction s as [|b s IH]; cbn [lower_string utf8_chars]; [reflexivity|].
  rewrite lower_lead, IH.
  destruct (trail_lower (utf8_chars s)) as [-> ->].
  now destruct (is_lead b).
Qed.

(** LIKE does not see the case of the ASCII letters of its pattern. *)
Lemma like_lower_pattern (p : list string) :
  forall s, like (map lower_string p) s = like p s.
Proof.
  induction p as [|c p IH]; intros s; cbn [map like]; [reflexivity|].
  destruct (lower_string_wildcard c) as [-> ->]. rewrite lower_string_twice.
  destruct (c =? "%").
  - now apply any_suffix_ext.
  - destruct s as [|d s]; [reflexivity|]. now rewrite IH.
Qed.

Lemma pattern_lower (query : string) (s : list string) :
  like (utf8_chars (c_str (like_pattern query))) s
  = like (utf8_chars (c_str (like_pattern (lower_string query)))) s.
Proof.
  rewrite <- like_lower_pattern, <- utf8_chars_lower, <- c_str_lower.
  unfold like_pattern. now rewrite !lower_string_app.
Qed.

Lemma contains_lower (column : option string) (q q' : string) :
  lower_string q = lower_string q' ->
  contains column q = contains column q'.
Proof.
  intros E. destruct column as [v|]; [|reflexivity]. cbn [contains].
  now rewrite (pattern_lower q), (pattern_lower q'), E.
Qed.

Lemma like_refuses_lower {R : Type} (q q' : string) (table : list R) :
  lower_string q = lower_string q' ->
  like_refuses q table = like_refuses q' table.
Proof.
  intros E. unfold like_refuses. rewrite !like_pattern_length.
  now rewrite <- (lower_string_length q), E, lower_string_length.
Qed.

(** X16. Search does not see the case of the query.  Two queries that differ
    only in the case of ASCII letters give the same outcome on every store
    and for every entity, wildcards or not. *)
Theorem search_query_case (w : World) (q q' entity : string) :
  map lower (list_ascii_of_string q) = map lower (list_ascii_of_string q') ->
  search q entity w = search q' entity w.
Proof.
  intros E.
  assert (lower_string q = lower_string q') as L
    by now rewrite !lower_string_bytes, E.
  unfold search, bind, get_store, ret. cbn [db].
  rewrite !(fun R t => @like_refuses_lower R q q' t L).
  destruct (entity =? "accounts"); [|destruct (entity =? "demands")];
    [| |reflexivity]; destruct (like_refuses q' _); try reflexivity;
    do 3 f_equal; apply filter_ext; intros x;
    now rewrite !(fun c => @contains_lower c q q' L).
Qed.

Lemma search_query_case_witness :
  search "ENGINEER" "demands" world_clones
  = search "engineer" "demands" world_clones /\
  exists rows,
    search "engineer" "demands" world_clones = (Ok (inr rows), world_clones) /\
    List.length rows = 3.
Proof.
  split.
  - apply search_query_case. reflexivity.
  - eexists. split; [lazy; reflexivity|reflexivity].
Defined.

Lemma any_suffix_here {X : Type} (f : list X -> bool) (s : list X) :
  f s = true -> any_suffix f s = true.
Proof. intros H. destruct s; cbn; now rewrite H. Qed.

(** A pattern matches a text that begins with the pattern itself, taken
    literally: [_] stands for the [_] in the text and [%] for the [%]. *)
Lemma like_itself (q r t : list string) :
  like r t = true -> like (q ++ r) (q ++ t) = true.
Proof.
  intros H. induction q as [|c q IH]; cbn [app like]; [exact H|].
  destruct (c =? "%").
  - cbn [any_suffix]. rewrite (any_suffix_here _ _ IH). apply orb_true_r.
  - now rewrite IH, String.eqb_refl, orb_true_r.
Qed.

Lemma contains_literal (query : string) (column : option string) :
  nul_free query = true ->
  on_column substring_cs query (as_read column) = true ->
  contains column query = true.
Proof.
  intros N. destruct column as [v|]; [|discriminate].
  cbn [as_read option_map on_column contains]. rewrite substring_cs_spec.
  intros (pre & post & E).
  rewrite (pattern_chars _ N), E. cbn [like]. rewrite String.eqb_refl.
  apply any_suffix_spec. exists pre, (utf8_chars query ++ post).
  split; [reflexivity|]. apply like_itself, like_percent.
Qed.

(** X17. Search misses no literal occurrence.  For a query without NUL and
    of fewer than 49999 bytes, wildcard characters included, a stored row
    in which the query occurs character for character in one of the four
    searched fields, each read up to its first NUL, is among the rows
    returned. *)
Theorem search_finds_literal (w : World) (query : string) :
  nul_free query = true ->
  within_like_limit query ->
  (exists rows,
      search query "accounts" w = (Ok (inl rows), w) /\
      forall a, In a (accounts (db w)) ->
                existsb (on_column substring_cs query)
                        (map as_read (account_fields a)) = true ->
                In a rows)
  /\
  (exists rows,
      search query "demands" w = (Ok (inr rows), w) /\
      forall d, In d (demands (db w)) ->
                existsb (on_column substring_cs query)
                        (map as_read (demand_fields d)) = true ->
                In d rows).
Proof.
  intros N L.
  pose proof (fun column => @contains_literal query column N) as Lit.
  unfold search, bind, get_store, ret.
  replace ("demands" =? "accounts") with false by reflexivity.
  rewrite !String.eqb_refl, !(fun R t => @like_refuses_within R query t L).
  cbn [db].
  split; eexists; (split; [reflexivity|]); intros x Hx M;
    apply filter_In; (split; [assumption|]);
    cbn [existsb account_fields demand_fields map] in M;
    rewrite orb_false_r, !orb_true_iff in M; rewrite !orb_true_iff;
    intuition auto.
Qed.

(** X18. The edges of search.  An entity other than "accounts" and "demands"
    raises ValueError.  A query of fewer than 49999 bytes returns stored
    rows only, none of them with its four searched fields all null, and the
    empty query returns every other row.  A longer query raises
    OperationalError as soon as the searched table has a row.  The store is
    never touched. *)
Theorem search_edges (w : World) (query entity : string) :
  (entity <> "accounts" -> entity <> "demands" ->
   search query entity w = (Raise ValueError, w))
  /\
  (within_like_limit query ->
   exists rows,
     search query "accounts" w = (Ok (inl rows), w) /\
     forall a, In a rows ->
               In a (accounts (db w)) /\
               exists v, In (Some v) (account_fields a))
  /\
  (within_like_limit query ->
   exists rows,
     search query "demands" w = (Ok (inr rows), w) /\
     forall d, In d rows ->
               In d (demands (db w)) /\
               exists v, In (Some v) (demand_fields d))
  /\
  (~ within_like_limit query -> accounts (db w) <> [] ->
   search query "accounts" w = (Raise OperationalError, w))
  /\
  (~ within_like_limit query -> demands (db w) <> [] ->
   search query "demands" w = (Raise OperationalError, w))
  /\
  search EmptyString "accounts" w
  = (Ok (inl (filter (fun a => existsb not_null
                                       (account_fields a))
                     (accounts (db w)))), w)
  /\
  search EmptyString "demands" w
  = (Ok (inr (filter (fun d => existsb not_null
                                       (demand_fields d))
                     (demands (db w)))), w).
Proof.
  assert (forall column, contains column query = true ->
                         exists v, column = Some v) as Some_.
  { intros [v|]; cbn; [eauto|discriminate]. }
  assert (forall column,
             contains column EmptyString = not_null column) as Empty.
  { intros [v|]; [|reflexivity]. cbn [contains not_null].
    change (utf8_chars (c_str (like_pattern EmptyString))) with ["%"; "%"].
    cbn [like]. rewrite String.eqb_refl.
    apply any_suffix_here, like_percent. }
  assert (within_like_limit EmptyString) as Short
    by (unfold within_like_limit; cbn; lia).
  assert (forall (R : Type) (table : list R),
             ~ within_like_limit query -> table <> [] ->
             like_refuses query table = true) as Long.
  { intros R table Over NE. unfold like_refuses, within_like_limit in *.
    rewrite like_pattern_length.
    destruct table; [congruence|]. rewrite andb_true_r.
    apply Z.ltb_lt. lia. }
  split; [|split; [|split; [|split; [|split; [|split]]]]].
  - intros Na Nd. unfold search, bind, get_store.
    apply String.eqb_neq in Na, Nd. now rewrite Na, Nd.
  - intros L. unfold search, bind, get_store, ret. rewrite String.eqb_refl.
    rewrite (@like_refuses_within _ query _ L).
    eexists. split; [reflexivity|]. cbn [db]. intros a Ha.
    apply filter_In in Ha as [Ha M]. split; [assumption|].
    rewrite !orb_true_iff in M. cbn [account_fields In].
    destruct M as [[[M|M]|M]|M]; destruct (Some_ _ M) as [v E]; exists v;
      rewrite E; auto.
  - intros L. unfold search, bind, get_store, ret.
    replace ("demands" =? "accounts") with false by reflexivity.
    rewrite String.eqb_refl, (@like_refuses_within _ query _ L).
    eexists. split; [reflexivity|]. cbn [db]. intros d Hd.
    apply filter_In in Hd as [Hd M]. split; [assumption|].
    rewrite !orb_true_iff in M. cbn [demand_fields In].
    destruct M as [[[M|M]|M]|M]; destruct (Some_ _ M) as [v E]; exists v;
      rewrite E; auto.
  - intros Over NE. unfold search, bind, get_store, raise.
    rewrite String.eqb_refl. cbn [db]. now rewrite (Long _ _ Over NE).
  - intros Over NE. unfold search, bind, get_store, raise.
    replace ("demands" =? "accounts") with false by reflexivity.
    rewrite String.eqb_refl. cbn [db]. now rewrite (Long _ _ Over NE).
  - unfold search, bind, get_store, ret. rewrite String.eqb_refl.
    rewrite (@like_refuses_within _ EmptyString _ Short).
    do 3 f_equal. apply filter_ext. intros a.
    cbn [existsb account_fields]. rewrite !Empty.
    now rewrite orb_false_r, !orb_assoc.
  - unfold search, bind, get_store, ret.
    replace ("demands" =? "accounts") with false by reflexivity.
    rewrite String.eqb_refl, (@like_refuses_within _ EmptyString _ Short).
    do 3 f_equal. apply filter_ext. intros d.
    cbn [existsb demand_fields]. rewrite !Empty.
    now rewrite orb_false_r, !orb_assoc.
Qed.

Lemma search_edges_witness :
  search "Acme" "clients" world_clones = (Raise ValueError, world_clones).
Proof.
  apply (proj1 (search_edges world_clones "Acme" "clients"));
    intros E; discriminate E.
Defined.

(** ** Listing demands by account *)

(** X19. Every demand is listed under exactly one account.  In a store with
    referential integrity and distinct account ids, the listing of an
    account holds exactly the demands that point at it, and each stored
    demand is in the listing of one stored account and of no other. *)
Theorem demands_listed_once (w : World) :
  referential_integrity (db w) ->
  NoDup (map AccountModel.id (accounts (db w))) ->
  (forall key,
      exists rows,
        get_demands_by_account key w = (Ok rows, w) /\
        forall d, In d rows <->
                  In d (demands (db w)) /\
                  DemandModel.account_id d = Some key)
  /\
  (forall d, In d (demands (db w)) ->
     exists a,
       In a (accounts (db w)) /\
       In d (demands_of (db w) (AccountModel.id a)) /\
       forall b, In b (accounts (db w)) ->
                 In d (demands_of (db w) (AccountModel.id b)) -> b = a).
Proof.
  intros RI Na.
  assert (forall key d, In d (demands_of (db w) key) <->
                        In d (demands (db w)) /\
                        DemandModel.account_id d = Some key) as Mem.
  { intros key d. unfold demands_of. now rewrite filter_In, opt_eqb_true. }
  split.
  - intros key. eexists. split; [reflexivity|]. apply Mem.
  - intros d Hd. destruct (RI d Hd) as (a & Ha & E).
    exists a. split; [assumption|]. split; [now apply Mem|].
    intros b Hb L. apply Mem in L as [_ L].
    apply (NoDup_map_eq _ _ _ _ Na Hb Ha). congruence.
Qed.

Lemma demands_listed_once_witness :
  exists rows,
    get_demands_by_account "ACC-20240115093000" world_clones
    = (Ok rows, world_clones) /\
    List.length rows = 3.
Proof.
  assert (referential_integrity (db world_clones)) as RI.
  { unfold world_clones, world_demand, world_account. cbn [run].
    apply clone_demand_integrity, create_demand_integrity,
      create_account_integrity. intros d []. }
  destruct (@demands_listed_once world_clones RI) as [L _].
  { lazy. repeat constructor; cbn; intuition discriminate. }
  destruct (L "ACC-20240115093000") as (rows & G & _).
  exists rows. split; [exact G|].
  lazy in G. injection G as <-. reflexivity.
Defined.

Lemma search_finds_literal_witness :
  exists d rows,
    In d (demands (db world_demand)) /\
    DemandModel.location d = Some "Pune" /\
    search "Pune" "demands" world_demand = (Ok (inr rows), world_demand) /\
    In d rows.
Proof.
  destruct (@search_finds_literal world_demand "Pune" eq_refl)
    as [_ (rows & S & Found)]; [reflexivity|].
  eexists. exists rows. split; [left; reflexivity|].
  split; [reflexivity|]. split; [exact S|].
  apply Found; [left; reflexivity|reflexivity].
Defined.

(** ** Counts below one *)

(** X11. The service takes any integer for [count]: a stored source and a
    count of zero or less give the empty list, with nothing stored and no
    exception ([range(count)] is empty). *)
Theorem clone_demand_nonpositive
    (clock : nat -> datetime) (w : World) (demand_id : string)
    (source_demand : DemandModel.t) (count : Z) (user_id : string) :
  first_demand (db w) demand_id = Some source_demand ->
  (count <= 0)%Z ->
  exists w',
    clone_demand clock demand_id count user_id w = (Ok [], w') /\
    db w' = db w.
Proof.
  intros F C. destruct w as [[acc dem] n]. cbn [db] in F.
  assert (Z.to_nat count = 0) as Z0 by lia.
  eexists. split.
  - unfold clone_demand, bind, get_store, now. cbn [db ticks].
    rewrite F, Z0. cbn [clone_loop]. unfold ret, insert_demands, bind,
      get_store, put_store, ret. cbn [db ticks demands accounts
      flush_inserts]. rewrite app_nil_r. reflexivity.
  - reflexivity.
Qed.

Lemma clone_demand_nonpositive_witness :
  exists w',
    clone_demand same_second "DEM-20240115093000" (-3) "ben" world_demand
    = (Ok [], w') /\
    db w' = db world_demand.
Proof.
  eapply clone_demand_nonpositive; [reflexivity|lia].
Defined.

(** ** What the flush refuses *)

Lemma parse_field_digestible (strptime : string -> option date)
    (x : field string) :
  date_digestible strptime x ->
  exists y,
    (forall w, parse_field strptime x w = (Ok y, w)) /\
    ((date_empty x /\
      forall old w, flush_date y old w = (Raise StatementError, w)) \/
     (~ date_empty x /\
      forall old, exists d, forall w, flush_date y old w = (Ok d, w))).
Proof.
  unfold date_empty. destruct x as [|[s|]]; cbn [date_digestible].
  - intros _. exists Unset. split; [reflexivity|right].
    split; [discriminate|]. intros old. exists old. reflexivity.
  - destruct s as [|c s]; cbn [created_date_accepted truthy parse_field].
    + intros _. exists (Given (Some (PyStr EmptyString))).
      split; [reflexivity|left]. split; reflexivity.
    + intros [T|P]; [discriminate|].
      destruct (strptime (String c s)) as [d|] eqn:E; [|congruence].
      exists (Given (Some (PyDate d))). split.
      * intros w. unfold bind, parse. now rewrite E.
      * right. split; [discriminate|]. intros old. exists (Some d).
        reflexivity.
  - intros _. exists (Given None). split; [reflexivity|right].
    split; [discriminate|]. intros old. exists None. reflexivity.
Qed.

(** X20. An empty date string in an account update.  [create_account]
    takes the empty string for no date, but [update_account] assigns it to
    the row as it is: when every date of the request gets through the
    parsing loop and one of them is the empty string, the commit raises
    StatementError after the clock has been read, and the store is as
    before. *)
Theorem update_account_empty_date
    (strptime : string -> option date) (clock : nat -> datetime)
    (w : World) (account_id : string) (account : AccountModel.t)
    (account_data : AccountUpdate.t) (user_id : string) :
  first_account (db w) account_id = Some account ->
  date_digestible strptime (AccountUpdate.revised_start_date account_data) ->
  date_digestible strptime (AccountUpdate.planned_start_date account_data) ->
  date_digestible strptime (AccountUpdate.planned_end_date account_data) ->
  date_empty (AccountUpdate.revised_start_date account_data) \/
  date_empty (AccountUpdate.planned_start_date account_data) \/
  date_empty (AccountUpdate.planned_end_date account_data) ->
  update_account strptime clock account_id account_data user_id w
  = (Raise StatementError, mk_world (db w) (S (ticks w))).
Proof.
  intros F D1 D2 D3 E.
  destruct (parse_field_digestible strptime _ D1) as (y1 & P1 & C1).
  destruct (parse_field_digestible strptime _ D2) as (y2 & P2 & C2).
  destruct (parse_field_digestible strptime _ D3) as (y3 & P3 & C3).
  unfold update_account, bind, get_store, now. cbn [db ticks].
  rewrite F, P1, P2, P3.
  destruct C1 as [[_ R1]|[N1 O1]]; [now rewrite R1|].
  destruct (O1 (AccountModel.revised_start_date account)) as [d1 Q1].
  rewrite Q1.
  destruct C2 as [[_ R2]|[N2 O2]]; [now rewrite R2|].
  destruct (O2 (AccountModel.planned_start_date account)) as [d2 Q2].
  rewrite Q2.
  destruct C3 as [[_ R3]|[N3 _]]; [now rewrite R3|].
  tauto.
Qed.

Lemma update_account_empty_date_witness :
  AccountCreate.planned_end_date acme = Some EmptyString /\
  (exists account,
      first_account (db world_account) "ACC-20240115093000" = Some account /\
      AccountModel.planned_end_date account = None) /\
  update_account sample_strptime same_second "ACC-20240115093000"
                 empty_planned_end "ben" world_account
  = (Raise StatementError,
     mk_world (db world_account) (S (ticks world_account))).
Proof.
  split; [reflexivity|]. split; [eexists; split; reflexivity|].
  eapply update_account_empty_date.
  - reflexivity.
  - exact I.
  - exact I.
  - left. reflexivity.
  - right. right. reflexivity.
Defined.

Lemma bind_given_cases (x : field Z) (w : World) :
  (int_accepted x /\ bind_given x w = (Ok tt, w)) \/
  (~ int_accepted x /\ bind_given x w = (Raise OverflowError, w)).
Proof.
  destruct x as [|[n|]]; cbn; auto.
  destruct (int64 n); [left|right]; split; auto; discriminate.
Qed.

(** X21. Integers SQLite cannot hold.  The schemas put no range on the
    [allocation_percentage] and [probability] of a demand.  When one of
    them lies outside 64 bits, a creation that has found its account and
    digested its dates raises OverflowError, and so does an update of a
    stored demand whose account and dates are in order; in both cases
    nothing is stored. *)
Theorem demand_integer_overflow
    (strptime : string -> option date) (clock : nat -> datetime)
    (w : World) (user_id : string) :
  (forall demand_data,
      first_account (db w) (DemandCreate.account_id demand_data) <> None ->
      created_date_accepted strptime
        (DemandCreate.original_start_date demand_data) ->
      created_date_accepted strptime
        (DemandCreate.allocation_end_date demand_data) ->
      int64 (DemandCreate.allocation_percentage demand_data) = false \/
      int64 (DemandCreate.probability demand_data) = false ->
      fst (create_demand strptime clock demand_data user_id w)
      = Raise OverflowError /\
      db (snd (create_demand strptime clock demand_data user_id w)) = db w)
  /\
  (forall demand_id demand demand_data,
      first_demand (db w) demand_id = Some demand ->
      account_ref_accepted (db w) (DemandUpdate.account_id demand_data) ->
      demand_dates_accepted strptime demand_data ->
      ~ demand_ints_accepted demand_data ->
      fst (update_demand strptime clock demand_id demand_data user_id w)
      = Raise OverflowError /\
      db (snd (update_demand strptime clock demand_id demand_data user_id w))
      = db w).
Proof.
  split.
  - intros demand_data Fa A1 A2 Over.
    destruct (first_account (db w) _) as [a|] eqn:F; [clear Fa|congruence].
    unfold create_demand, bind, get_store, now. cbn [db ticks]. rewrite F.
    rewrite (parse_optional_value strptime _ A1),
            (parse_optional_value strptime _ A2).
    unfold insert_demand, bind_int, bind, get_store, raise, ret.
    cbn [db ticks DemandModel.allocation_percentage DemandModel.probability].
    destruct (int64 (DemandCreate.allocation_percentage demand_data));
      [|split; reflexivity].
    destruct Over as [Over|Over]; [discriminate|]. rewrite Over.
    split; reflexivity.
  - intros demand_id demand demand_data F R (A1 & A2) Over.
    destruct (parse_field_accepted strptime _ A1) as (y1 & P1 & Q1).
    destruct (parse_field_accepted strptime _ A2) as (y2 & P2 & Q2).
    unfold update_demand, bind, get_store, now. cbn [db ticks].
    rewrite F, (check_account_id_accepted _ _ _ R), P1, P2, Q1, Q2.
    match goal with
    | |- context [bind_given ?x ?w0] =>
        destruct (bind_given_cases x w0) as [[I1 ->]|[_ ->]]
    end; [|split; reflexivity].
    match goal with
    | |- context [bind_given ?x ?w0] =>
        destruct (bind_given_cases x w0) as [[I2 ->]|[_ ->]]
    end; [|split; reflexivity].
    exfalso. apply Over. split; assumption.
Qed.

Lemma demand_integer_overflow_witness :
  fst (update_demand sample_strptime same_second "DEM-20240115093000"
                     too_large "ben" world_demand)
  = Raise OverflowError /\
  db (snd (update_demand sample_strptime same_second "DEM-20240115093000"
                         too_large "ben" world_demand))
  = db world_demand.
Proof.
  destruct (demand_integer_overflow sample_strptime same_second world_demand
                                    "ben") as [_ U].
  eapply U.
  - reflexivity.
  - exact I.
  - repeat split.
  - intros [A _]. discriminate A.
Defined.
